(** * CHD_app: the Streamlit heart-disease risk form (src/app.py)

    A shallow embedding of the script: Python strings and the two string
    methods it uses, the pandas frame handled by [clean_famhist], the
    cached loader [load_model], and the prediction block that runs when the
    form is submitted.  Effects (file system, resource cache, calls into the
    model, rendered elements) are explicit: a computation maps a state to an
    outcome, a new state and the events it produced. *)

From Stdlib Require Import Ascii String NArith ZArith QArith Lqa.
From stdpp Require Import gmap strings list fin_maps.

(* ===================================================================== *)
(** ** Python [str]: the methods [strip] and [lower]

    A [str] is a sequence of code points; the embedding covers the code
    points below 256 (one [ascii] each).  On this range [str.isspace] holds
    of U+0009..U+000D, U+001C..U+0020, U+0085 and U+00A0, and [str.lower]
    moves A..Z and U+00C0..U+00DE (except the sign U+00D7) up by 32. *)
(* ===================================================================== *)

Module PyStr.

Definition isspace (c : ascii) : bool :=
  let n := N_of_ascii c in
  (((9 <=? n) && (n <=? 13)) || ((28 <=? n) && (n <=? 32))
   || (n =? 133) || (n =? 160))%N.

Definition lower_char (c : ascii) : ascii :=
  let n := N_of_ascii c in
  if (((65 <=? n) && (n <=? 90))
      || ((192 <=? n) && (n <=? 222) && negb (n =? 215)))%N
  then ascii_of_N (n + 32)
  else c.

(** [s.lower()] *)
Fixpoint lower (s : string) : string :=
  match s with
  | EmptyString => EmptyString
  | String c s' => String (lower_char c) (lower s')
  end.

(** [s.lstrip()]: drop the leading whitespace. *)
Fixpoint lstrip (s : string) : string :=
  match s with
  | EmptyString => EmptyString
  | String c s' => if isspace c then lstrip s' else s
  end.

Definition is_empty (s : string) : bool :=
  match s with EmptyString => true | String _ _ => false end.

(** [s.rstrip()]: drop the trailing whitespace. *)
Fixpoint rstrip (s : string) : string :=
  match s with
  | EmptyString => EmptyString
  | String c s' =>
      let r := rstrip s' in
      if isspace c && is_empty r then EmptyString else String c r
  end.

(** [s.strip()] *)
Definition strip (s : string) : string := rstrip (lstrip s).

(** The whole string is whitespace. *)
Fixpoint all_space (s : string) : bool :=
  match s with
  | EmptyString => true
  | String c s' => isspace c && all_space s'
  end.

End PyStr.

(* ===================================================================== *)
(** ** Computations: state, exceptions, events

    An exception value is its class name and its message.  [Exception] is
    an instance of Python's [Exception]; [BaseException] is an instance of
    [BaseException] that is no [Exception] ([SystemExit],
    [KeyboardInterrupt], [GeneratorExit]).  The two [except Exception]
    clauses of the script (lines 37 and 194) catch the first kind only. *)
(* ===================================================================== *)

Inductive exn :=
  | Exception (kind msg : string)
  | BaseException (kind msg : string).

(** [isinstance(e, Exception)] *)
Definition is_exception (e : exn) : bool :=
  match e with
  | Exception _ _ => true
  | BaseException _ _ => false
  end.

Inductive outcome (A : Type) :=
  | Return (a : A)
  | Raise (e : exn).
Arguments Return {A} a.
Arguments Raise {A} e.

Definition index_error : exn := Exception "IndexError" "index out of range".

(** A computation over a state [S] that emits events of type [E]. *)
Definition prog (S E A : Type) : Type := S -> outcome A * S * list E.

Section Prog.
Context {S E : Type}.

Definition ret {A} (a : A) : prog S E A := fun s => (Return a, s, []).

Definition raise {A} (e : exn) : prog S E A := fun s => (Raise e, s, []).

Definition bind {A B} (k : A -> prog S E B) (c : prog S E A) : prog S E B :=
  fun s =>
    match c s with
    | (Return a, s1, evs) =>
        let '(r, s2, evs') := k a s1 in (r, s2, evs ++ evs')
    | (Raise e, s1, evs) => (Raise e, s1, evs)
    end.

Definition emit (ev : E) : prog S E unit := fun s => (Return tt, s, [ev]).

(** [try: body  except Exception as e: handler e]: an exception that is
    no instance of [Exception] passes through. *)
Definition try_except {A} (body : prog S E A) (handler : exn -> prog S E A)
  : prog S E A :=
  fun s =>
    match body s with
    | (Return a, s1, evs) => (Return a, s1, evs)
    | (Raise e, s1, evs) =>
        if is_exception e
        then let '(r, s2, evs') := handler e s1 in (r, s2, evs ++ evs')
        else (Raise e, s1, evs)
    end.

(** A computation whose outcome is dropped: what it did stays done, an
    exception it raised goes no further. *)
Definition attempt {A} (c : prog S E A) : prog S E unit :=
  fun s => let '(_, s1, evs) := c s in (Return tt, s1, evs).

(** A value computed without effects, or the exception it raises. *)
Definition lift {A} (o : outcome A) : prog S E A := fun s => (o, s, []).

(** [a[i]] on a sequence. *)
Definition py_index {A} (a : list A) (i : nat) : prog S E A :=
  match a !! i with
  | Some x => ret x
  | None => raise index_error
  end.
End Prog.

#[global] Instance prog_ret {S E} : MRet (prog S E) := @ret S E.
#[global] Instance prog_bind {S E} : MBind (prog S E) := @bind S E.

(** The three components of a run. *)
Definition result_of {S E A} (r : outcome A * S * list E) : outcome A := r.1.1.
Definition state_of {S E A} (r : outcome A * S * list E) : S := r.1.2.
Definition events_of {S E A} (r : outcome A * S * list E) : list E := r.2.

(** Python's builtin [max] on a sequence of numbers: the first of the
    largest items; [ValueError] on an empty sequence.  The floats of the
    script are only compared and displayed; they are taken as the rationals
    they denote. *)
Definition py_max (l : list Q) : outcome Q :=
  match l with
  | [] => Raise (Exception "ValueError" "max() arg is an empty sequence")
  | x :: r => Return (fold_left (fun m y => if Qle_bool y m then m else y) r x)
  end.

(* ===================================================================== *)
(** ** pandas: frames, the object store, [clean_famhist] (lines 15-24)

    A frame is its columns in order; a column has one dtype.  Frames are
    objects: a variable holds a reference into the store, [X.copy()]
    allocates a new frame and [X[name] = col] updates the frame the
    reference points to. *)
(* ===================================================================== *)

Module Pandas.

Inductive column :=
  | ColInt (l : list Z)
  | ColFloat (l : list Q)
  | ColStr (l : list string).

Definition DataFrame : Type := list (string * column).

Abbreviation ref := nat (only parsing).
Abbreviation store := (gmap nat DataFrame) (only parsing).

(** [X[name]] read from a frame value; [None] is pandas' [KeyError]. *)
Fixpoint df_getitem (X : DataFrame) (name : string) : option column :=
  match X with
  | [] => None
  | (n, c) :: X' => if String.eqb n name then Some c else df_getitem X' name
  end.

(** [X[name] = c]: an existing column is replaced where it stands, a new
    one is added at the end. *)
Fixpoint df_setitem (X : DataFrame) (name : string) (c : column) : DataFrame :=
  match X with
  | [] => [(name, c)]
  | (n, c') :: X' =>
      if String.eqb n name then (n, c) :: X'
      else (n, c') :: df_setitem X' name c
  end.

Definition columns (X : DataFrame) : list string := X.*1.

(** The [.str] accessor: defined on columns of strings only. *)
Definition str_accessor (c : column) : outcome (list string) :=
  match c with
  | ColStr l => Return l
  | _ => Raise (Exception "AttributeError"
                  "Can only use .str accessor with string values!")
  end.

(** [Series.replace(d)] with a dict: a value that is a key of [d] becomes
    the value stored under it, any other value stays. *)
Fixpoint dict_get (d : list (string * string)) (k : string) : option string :=
  match d with
  | [] => None
  | (k', v) :: d' => if String.eqb k' k then Some v else dict_get d' k
  end.

Definition replace (d : list (string * string)) (v : string) : string :=
  match dict_get d v with
  | Some v' => v'
  | None => v
  end.

(** What line 18-23 does to one cell of the column. *)
Definition normalize (v : string) : string :=
  replace [("present", "present"); ("absent", "absent")]%string
          (PyStr.lower (PyStr.strip v)).

(** [x] is [w] up to the case of its letters and surrounding whitespace. *)
Definition variant_of (w x : string) : Prop :=
  exists l m r, x = (l ++ m ++ r)%string /\
    PyStr.all_space l = true /\ PyStr.all_space r = true /\ PyStr.lower m = w.

Section Store.
Context {E : Type}.

(** The frame a reference points to.  Python has no dangling reference; the
    embedding answers one with an error. *)
Definition deref (X : ref) : prog store E DataFrame := fun h =>
  match h !! X with
  | Some df => (Return df, h, [])
  | None => (Raise (Exception "ReferenceError" "no such object"), h, [])
  end.

(** A new object holding [df]. *)
Definition alloc (df : DataFrame) : prog store E ref := fun h =>
  let r := fresh (dom h) in (Return r, <[r := df]> h, []).

Definition assign (X : ref) (df : DataFrame) : prog store E unit := fun h =>
  (Return tt, <[X := df]> h, []).

(** [X.copy()] *)
Definition df_copy (X : ref) : prog store E ref :=
  df ← deref X;
  alloc df.

(** [X[name]] *)
Definition getitem (X : ref) (name : string) : prog store E column :=
  df ← deref X;
  match df_getitem df name with
  | Some c => ret c
  | None => raise (Exception "KeyError" name)
  end.

(** [X[name] = c] *)
Definition setitem (X : ref) (name : string) (c : column) : prog store E unit :=
  df ← deref X;
  assign X (df_setitem df name c).

Definition clean_famhist (X : ref) : prog store E ref :=
  X ← df_copy X;
  col ← getitem X "famhist";
  s ← lift (str_accessor col);
  let s := PyStr.strip <$> s in
  let s := PyStr.lower <$> s in
  let s := replace [("present", "present"); ("absent", "absent")]%string <$> s in
  setitem X "famhist" (ColStr s);;
  ret X.
End Store.

End Pandas.

(* ===================================================================== *)
(** ** The application (lines 26-205) *)
(* ===================================================================== *)

Module App.
Import Pandas.

(** What the unpickled object offers: [predict] and [predict_proba] on a
    frame.  Each may raise. *)
Record Model := {
  predict : DataFrame -> outcome (list Z);
  predict_proba : DataFrame -> outcome (list (list Q))
}.

(** The object [joblib.load] returns: its identity and its operations. *)
Record handle := { handle_id : nat; handle_model : Model }.

(** The texts given to [st.error]:
    line 33 "Fichier {model_path} introuvable!",
    line 38 "Erreur lors du chargement du modele : {e}",
    line 195 "Erreur lors de la prediction : {e}",
    line 164 the high-risk alert with the probability. *)
Inductive error_message :=
  | ArtifactNotFound (path : string)
  | ArtifactCorrupt (cause : exn)
  | PredictionFailure (cause : exn)
  | HighRiskAlert (p : Q).

Inductive risk := HighRisk | LowRisk.

Inductive metric_name := Prediction | ProbabiliteCHD | Confiance.

(** [Percent p] is the text f"{p:.1%}". *)
Inductive metric_value := Risk (r : risk) | Percent (p : Q).

Inductive element :=
  | PageConfig | Title | Intro | FormHeader | Form
  | Spinner | Rule | ResultsHeader
  | Metric (name : metric_name) (value : metric_value)
  | StError (m : error_message)
  | StSuccess (p : Q)
  | LevelHeader
  | Progress (p : Q)
  | Footer.

Inductive event :=
  | EvExists (path : string)            (* os.path.exists(path) *)
  | EvLoad (path : string)              (* joblib.load(path) reads the file *)
  | EvPredict (h : nat) (X : DataFrame)      (* model.predict(X) *)
  | EvPredictProba (h : nat) (X : DataFrame) (* model.predict_proba(X) *)
  | EvRender (e : element).             (* an st.* call *)

(** The process: the files on disk (a path maps to what unpickling its
    content yields), the entry of [st.cache_resource] for [load_model] (the
    value returned and the elements rendered while computing it), and the
    next fresh object identity. *)
Record state := {
  fs : gmap string (outcome Model);
  cache : option (option handle * list element);
  next_id : nat
}.

Definition set_cache (c : option (option handle * list element)) (s : state) : state :=
  {| fs := fs s; cache := c; next_id := next_id s |}.

Definition render (e : element) : prog state event unit := emit (EvRender e).

Definition os_path_exists (path : string) : prog state event bool := fun s =>
  (Return (bool_decide (is_Some (fs s !! path))), s, [EvExists path]).

Definition joblib_load (path : string) : prog state event handle := fun s =>
  match fs s !! path with
  | None => (Raise (Exception "FileNotFoundError" path), s, [EvLoad path])
  | Some (Raise e) => (Raise e, s, [EvLoad path])
  | Some (Return m) =>
      (Return {| handle_id := next_id s; handle_model := m |},
       {| fs := fs s; cache := cache s; next_id := Datatypes.S (next_id s) |},
       [EvLoad path])
  end.

(** Line 31. *)
Definition model_path : string := "Model3.pkl".

(** Lines 28-39, the function under the decorator. *)
Definition load_model_body : prog state event (option handle) :=
  try_except
    (found ← os_path_exists model_path;
     if negb found then
       render (StError (ArtifactNotFound model_path));;
       ret None
     else
       model ← joblib_load model_path;
       ret (Some model))
    (fun e =>
       render (StError (ArtifactCorrupt e));;
       ret None).

Definition rendered (evs : list event) : list element :=
  omap (fun ev => match ev with EvRender e => Some e | _ => None end) evs.

(** [@st.cache_resource] on a function without arguments: the first call
    that returns stores the returned object and the elements the call
    rendered; every later call returns the stored object itself and
    renders the stored elements again, without running the function. *)
Definition cache_resource (body : prog state event (option handle))
  : prog state event (option handle) :=
  fun s =>
    match cache s with
    | Some (v, els) => (Return v, s, EvRender <$> els)
    | None =>
        match body s with
        | (Return v, s1, evs) =>
            (Return v, set_cache (Some (v, rendered evs)) s1, evs)
        | (Raise e, s1, evs) => (Raise e, s1, evs)
        end
    end.

(** Line 27-28: the decorated function. *)
Definition load_model : prog state event (option handle) :=
  cache_resource load_model_body.

(** What the widgets of the form hold when the script runs. *)
Record form := {
  sbp : Z; ldl : Q; adiposity : Z; obesity : Q; age : Z;
  famhist : string;
  submitted : bool
}.

(** Line 112, the options of the select box. *)
Definition famhist_options : list string := ["Present"; "Absent"]%string.

(** The bounds the widgets enforce (lines 67-114). *)
Definition form_valid (f : form) : Prop :=
  (80 <= sbp f <= 250)%Z /\ (0 <= ldl f <= 1600)%Q /\
  (10 <= adiposity f <= 4500)%Z /\ (10 <= obesity f <= 5000)%Q /\
  (15 <= age f <= 100)%Z /\ famhist f ∈ famhist_options.

(** Lines 122-129. *)
Definition input_data (f : form) : DataFrame :=
  [ ("sbp"%string, ColInt [sbp f]);
    ("ldl"%string, ColFloat [ldl f]);
    ("adiposity"%string, ColInt [adiposity f]);
    ("famhist"%string, ColStr [PyStr.lower (famhist f)]);
    ("obesity"%string, ColFloat [obesity f]);
    ("age"%string, ColInt [age f]) ].

Definition call_predict (model : handle) (X : DataFrame)
  : prog state event (list Z) :=
  emit (EvPredict (handle_id model) X);;
  lift (predict (handle_model model) X).

Definition call_predict_proba (model : handle) (X : DataFrame)
  : prog state event (list (list Q)) :=
  emit (EvPredictProba (handle_id model) X);;
  lift (predict_proba (handle_model model) X).

(** [st.progress(p)] with a float: the value has to lie in [0.0, 1.0]. *)
Definition st_progress (p : Q) : prog state event unit :=
  if Qle_bool 0 p && Qle_bool p 1 then render (Progress p)
  else raise (Exception "StreamlitAPIException"
                "Progress Value has invalid value [0.0, 1.0]").

Definition risk_of (prediction : Z) : risk :=
  if (prediction =? 1)%Z then HighRisk else LowRisk.

(** Lines 134-195, the body of [if submitted:] after the frame is built. *)
Definition predict_and_show (model : handle) (input_data : DataFrame)
  : prog state event unit :=
  try_except
    (render Spinner;;
     a ← call_predict model input_data;
     prediction ← py_index a 0;
     a ← call_predict_proba model input_data;
     proba ← py_index a 0;
     proba_chd ← py_index proba 1;
     render Rule;;
     render ResultsHeader;;
     render (Metric Prediction (Risk (risk_of prediction)));;
     render (Metric ProbabiliteCHD (Percent proba_chd));;
     m ← lift (py_max proba);
     render (Metric Confiance (Percent m));;
     (if (prediction =? 1)%Z
      then render (StError (HighRiskAlert proba_chd))
      else render (StSuccess proba_chd));;
     render LevelHeader;;
     st_progress proba_chd)
    (fun e => render (StError (PredictionFailure e))).

(** Lines 120-195. *)
Definition prediction_block (model : handle) (f : form) : prog state event unit :=
  predict_and_show model (input_data f).

(** One run of the script for the given widget values.  [st.stop()] ends
    the run at line 55. *)
Definition script_run (f : form) : prog state event unit :=
  render PageConfig;;
  render Title;;
  render Intro;;
  model ← load_model;
  match model with
  | None => ret tt
  | Some model =>
      render FormHeader;;
      render Form;;
      (if submitted f then prediction_block model f else ret tt);;
      render Rule;;
      render Footer
  end.

(** The process serves one script run after the other; a run that ends
    with an uncaught exception does not end the process. *)
Fixpoint session (forms : list form) : prog state event unit :=
  match forms with
  | [] => ret tt
  | f :: forms' => attempt (script_run f);; session forms'
  end.

(** What the handler of line 194 makes of an exception [e] raised in the
    state [s] after the events [evs]. *)
Definition handled (s : state) (evs : list event) (e : exn)
  : outcome unit * state * list event :=
  if is_exception e
  then (Return tt, s, evs ++ [EvRender (StError (PredictionFailure e))])
  else (Raise e, s, evs).

(** What every run renders first (lines 7-49). *)
Definition header : list event :=
  [EvRender PageConfig; EvRender Title; EvRender Intro].

(** Observations on a list of events. *)
Definition is_load (ev : event) : bool :=
  match ev with EvLoad _ => true | _ => false end.

Definition is_model_call (ev : event) : bool :=
  match ev with EvPredict _ _ | EvPredictProba _ _ => true | _ => false end.

Definition loads (evs : list event) : nat := length (List.filter is_load evs).

Definition model_calls (evs : list event) : list event := List.filter is_model_call evs.



(** Accesses to the file system. *)
Definition is_io (ev : event) : bool :=
  match ev with EvExists _ | EvLoad _ => true | _ => false end.

Definition metrics (evs : list event) : list (metric_name * metric_value) :=
  omap (fun ev => match ev with
                  | EvRender (Metric n v) => Some (n, v)
                  | _ => None
                  end) evs.

Definition failures (evs : list event) : list error_message :=
  omap (fun ev => match ev with
                  | EvRender (StError (HighRiskAlert _)) => None
                  | EvRender (StError m) => Some m
                  | _ => None
                  end) evs.

(** The identity of the object a model call went to. *)
Definition call_handle (ev : event) : option nat :=
  match ev with
  | EvPredict h _ | EvPredictProba h _ => Some h
  | _ => None
  end.

(** The coloured message under the metrics (lines 163-188). *)
Definition alerts (evs : list event) : list element :=
  omap (fun ev => match ev with
                  | EvRender (StError (HighRiskAlert p)) => Some (StError (HighRiskAlert p))
                  | EvRender (StSuccess p) => Some (StSuccess p)
                  | _ => None
                  end) evs.

(** Concrete values to run the script on: the defaults of the widgets
    (lines 71-112), a model that answers class 1 with probabilities
    0.3 / 0.7, one whose [predict] raises, and two process states. *)
Module Fixtures.

Definition default_form : form :=
  {| sbp := 138; ldl := 440; adiposity := 2326; obesity := 2373; age := 43;
     famhist := "Present"; submitted := true |}.

Definition idle_form : form :=
  {| sbp := 138; ldl := 440; adiposity := 2326; obesity := 2373; age := 43;
     famhist := "Present"; submitted := false |}.


Definition stub_model : Model :=
  {| predict := fun _ => Return [1%Z];
     predict_proba := fun _ => Return [[(3 # 10)%Q; (7 # 10)%Q]] |}.

Definition value_error : exn := Exception "ValueError" "could not convert".

Definition broken_model : Model :=
  {| predict := fun _ => Raise value_error;
     predict_proba := fun _ => Return [[(3 # 10)%Q; (7 # 10)%Q]] |}.

Definition stub_handle : handle := {| handle_id := 0; handle_model := stub_model |}.

Definition broken_handle : handle := {| handle_id := 0; handle_model := broken_model |}.

(** The artifact is on disk, nothing is cached yet. *)
Definition start_state : state :=
  {| fs := {[ model_path := Return stub_model ]}; cache := None; next_id := 0 |}.

(** No artifact on disk. *)
Definition bare_state : state := {| fs := ∅; cache := None; next_id := 7 |}.

Definition sample_frame : DataFrame :=
  [ ("sbp"%string, ColInt [138%Z; 120%Z]);
    ("famhist"%string, ColStr [" Present "; "unknown"]%string) ].

(** The same values with the category typed in capitals. *)
Definition capitals_form : form :=
  {| sbp := 138; ldl := 440; adiposity := 2326; obesity := 2373; age := 43;
     famhist := "PRESENT"; submitted := true |}.

(** A model that knows one class only: its rows have one entry. *)
Definition single_class_model : Model :=
  {| predict := fun _ => Return [0%Z];
     predict_proba := fun _ => Return [[1%Q]] |}.

Definition single_class_handle : handle :=
  {| handle_id := 0; handle_model := single_class_model |}.

(** A model whose [predict] answers with an empty array. *)
Definition silent_model : Model :=
  {| predict := fun _ => Return [];
     predict_proba := fun _ => Return [[(3 # 10)%Q; (7 # 10)%Q]] |}.

Definition silent_handle : handle :=
  {| handle_id := 0; handle_model := silent_model |}.

(** The artifact is on disk by now, but an earlier call of the loader has
    stored its failure. *)
Definition late_state : state :=
  {| fs := {[ model_path := Return stub_model ]};
     cache := Some (None, [StError (ArtifactNotFound model_path)]);
     next_id := 7 |}.

(** The loader has stored the handle. *)
Definition warm_state : state :=
  {| fs := {[ model_path := Return stub_model ]};
     cache := Some (Some stub_handle, []);
     next_id := 1 |}.


Definition system_exit : exn := BaseException "SystemExit" "1".

(** A model whose [predict] leaves through [sys.exit]. *)
Definition exiting_model : Model :=
  {| predict := fun _ => Raise system_exit;
     predict_proba := fun _ => Return [[(3 # 10)%Q; (7 # 10)%Q]] |}.

Definition exiting_handle : handle :=
  {| handle_id := 0; handle_model := exiting_model |}.


(** An artifact that does not unpickle. *)
Definition corrupt_state : state :=
  {| fs := {[ model_path := Raise value_error ]}; cache := None; next_id := 0 |}.

(** The handle is cached, the model raises [ValueError]. *)
Definition warm_broken_state : state :=
  {| fs := {[ model_path := Return broken_model ]};
     cache := Some (Some broken_handle, []);
     next_id := 1 |}.



Definition frame_without_famhist : DataFrame :=
  [ ("sbp"%string, ColInt [138%Z]); ("age"%string, ColInt [43%Z]) ].

Definition frame_with_coded_famhist : DataFrame :=
  [ ("sbp"%string, ColInt [138%Z]); ("famhist"%string, ColInt [1%Z]) ].

Definition variants_frame : DataFrame :=
  [ ("famhist"%string, ColStr [" Present "; "ABSENT"]%string);
    ("age"%string, ColInt [43%Z; 51%Z]) ].

End Fixtures.

End App.

Module PyStrFacts.
Import PyStr.

Ltac each_char c := destruct c as [[] [] [] [] [] [] [] []]; vm_compute; reflexivity.

Lemma lower_char_idem c : lower_char (lower_char c) = lower_char c.
Proof. each_char c. Qed.

Lemma isspace_lower_char c : isspace (lower_char c) = isspace c.
Proof. each_char c. Qed.

Lemma lower_idem s : lower (lower s) = lower s.
Proof.
  induction s as [|c s IH]; simpl; [reflexivity|].
  now rewrite lower_char_idem, IH.
Qed.

Lemma is_empty_lower s : is_empty (lower s) = is_empty s.
Proof. now destruct s. Qed.

Lemma lstrip_lower s : lstrip (lower s) = lower (lstrip s).
Proof.
  induction s as [|c s IH]; simpl; [reflexivity|].
  rewrite isspace_lower_char. now destruct (isspace c).
Qed.

Lemma rstrip_lower s : rstrip (lower s) = lower (rstrip s).
Proof.
  induction s as [|c s IH]; simpl; [reflexivity|].
  rewrite isspace_lower_char, IH, is_empty_lower.
  now destruct (isspace c && is_empty (rstrip s)).
Qed.

Lemma strip_lower s : strip (lower s) = lower (strip s).
Proof. unfold strip. now rewrite lstrip_lower, rstrip_lower. Qed.

Lemma lstrip_idem s : lstrip (lstrip s) = lstrip s.
Proof.
  induction s as [|c s IH]; simpl; [reflexivity|].
  destruct (isspace c) eqn:E; [exact IH|]. simpl. now rewrite E.
Qed.

Lemma rstrip_idem s : rstrip (rstrip s) = rstrip s.
Proof.
  induction s as [|c s IH]; simpl; [reflexivity|].
  destruct (isspace c) eqn:E; simpl.
  - destruct (is_empty (rstrip s)) eqn:F; simpl; [reflexivity|].
    now rewrite E, IH, F.
  - now rewrite E, IH.
Qed.

Lemma rstrip_lstrip s : rstrip (lstrip s) = lstrip (rstrip s).
Proof.
  induction s as [|c s IH]; simpl; [reflexivity|].
  destruct (isspace c) eqn:E; simpl.
  - destruct (is_empty (rstrip s)) eqn:F; simpl.
    + rewrite IH. destruct (rstrip s); [reflexivity|discriminate].
    + now rewrite E.
  - now rewrite E.
Qed.

Lemma strip_idem s : strip (strip s) = strip s.
Proof.
  unfold strip.
  now rewrite <- (rstrip_lstrip (lstrip s)), lstrip_idem, rstrip_idem.
Qed.

(** Whitespace on either side disappears. *)
Lemma lstrip_app_space l s : all_space l = true -> lstrip (l ++ s)%string = lstrip s.
Proof.
  induction l as [|c l IH]; simpl; [reflexivity|].
  intros [Hc Hl]%andb_prop. now rewrite Hc, IH.
Qed.

Lemma rstrip_all_space r : all_space r = true -> rstrip r = EmptyString.
Proof.
  induction r as [|c r IH]; simpl; [reflexivity|].
  intros [Hc Hr]%andb_prop. now rewrite Hc, IH.
Qed.

Lemma rstrip_app_space s r : all_space r = true -> rstrip (s ++ r)%string = rstrip s.
Proof.
  intros Hr. induction s as [|c s IH]; simpl.
  - now apply rstrip_all_space.
  - now rewrite IH.
Qed.

Lemma strip_pad l s r :
  all_space l = true -> all_space r = true -> strip (l ++ s ++ r)%string = strip s.
Proof.
  intros Hl Hr. unfold strip.
  rewrite lstrip_app_space by assumption.
  rewrite rstrip_lstrip, rstrip_app_space by assumption.
  now rewrite rstrip_lstrip.
Qed.

End PyStrFacts.

(* ===================================================================== *)
(** ** Running computations *)
(* ===================================================================== *)

Section ProgFacts.
Context {S E : Type}.
Implicit Types s : S.

Lemma run_bind {A B} (c : prog S E A) (k : A -> prog S E B) s :
  (c ≫= k) s =
  match c s with
  | (Return a, s1, evs) => let '(r, s2, evs') := k a s1 in (r, s2, evs ++ evs')
  | (Raise e, s1, evs) => (Raise e, s1, evs)
  end.
Proof. reflexivity. Qed.

Lemma run_bind_return {A B} (c : prog S E A) (k : A -> prog S E B) s a s1 evs :
  c s = (Return a, s1, evs) ->
  (c ≫= k) s = (result_of (k a s1), state_of (k a s1), evs ++ events_of (k a s1)).
Proof.
  intros H. rewrite run_bind, H. now destruct (k a s1) as [[r s2] evs'].
Qed.

Lemma run_bind_raise {A B} (c : prog S E A) (k : A -> prog S E B) s e s1 evs :
  c s = (Raise e, s1, evs) -> (c ≫= k) s = (Raise e, s1, evs).
Proof. intros H. now rewrite run_bind, H. Qed.

Lemma run_py_index {A} (a : list A) i x s :
  a !! i = Some x -> py_index a i s = (Return x, s, @nil E).
Proof. intros H. unfold py_index. now rewrite H. Qed.
End ProgFacts.

(* ===================================================================== *)
(** ** Facts about frames and [clean_famhist] *)
(* ===================================================================== *)

Module PandasFacts.
Import PyStr PyStrFacts Pandas.

Lemma df_getitem_setitem_eq X name c :
  df_getitem (df_setitem X name c) name = Some c.
Proof.
  induction X as [|[n c'] X IH]; simpl.
  - now rewrite String.eqb_refl.
  - destruct (String.eqb n name) eqn:En; simpl; now rewrite En.
Qed.

Lemma df_getitem_setitem_ne X name name' c :
  name <> name' ->
  df_getitem (df_setitem X name c) name' = df_getitem X name'.
Proof.
  intros Hne. induction X as [|[n c'] X IH]; simpl.
  - destruct (String.eqb_spec name name'); [contradiction|reflexivity].
  - destruct (String.eqb_spec n name) as [->|Hn]; simpl.
    + destruct (String.eqb_spec name name'); [contradiction|reflexivity].
    + now rewrite IH.
Qed.

(** Assigning to a column that exists keeps the columns and their order. *)
Lemma columns_setitem X name c c0 :
  df_getitem X name = Some c0 -> columns (df_setitem X name c) = columns X.
Proof.
  unfold columns. induction X as [|[n c'] X IH]; simpl; [discriminate|].
  destruct (String.eqb n name) eqn:En; intros H; simpl; [reflexivity|].
  f_equal. now apply IH.
Qed.

(** The dict of line 22 maps each key to itself. *)
Lemma replace_present_absent v :
  replace [("present", "present"); ("absent", "absent")]%string v = v.
Proof.
  unfold replace. cbn [dict_get].
  destruct (String.eqb_spec "present" v) as [<-|_]; [reflexivity|].
  destruct (String.eqb_spec "absent" v) as [<-|_]; reflexivity.
Qed.

Lemma normalize_strip_lower v : normalize v = lower (strip v).
Proof. apply replace_present_absent. Qed.

Lemma normalize_column (l : list string) :
  replace [("present", "present"); ("absent", "absent")]%string
    <$> (lower <$> (strip <$> l)) = normalize <$> l.
Proof. rewrite <- !list_fmap_compose. reflexivity. Qed.

Lemma normalize_variant w x :
  variant_of w x -> strip w = w -> normalize x = w.
Proof.
  intros (l & m & r & -> & Hl & Hr & <-) Hw.
  rewrite normalize_strip_lower, strip_pad by assumption.
  now rewrite <- strip_lower.
Qed.

(** What [clean_famhist] computes on a frame with a column of strings. *)
Lemma clean_famhist_run {E} (X : nat) (h : gmap nat DataFrame) df l :
  h !! X = Some df ->
  df_getitem df "famhist" = Some (ColStr l) ->
  @clean_famhist E X h =
    (Return (fresh (dom h)),
     <[fresh (dom h) := df_setitem df "famhist" (ColStr (normalize <$> l))]> h,
     []).
Proof.
  intros HX Hcol.
  unfold clean_famhist, df_copy, getitem, setitem, deref, alloc, assign, lift.
  rewrite !run_bind, HX. simpl.
  rewrite !run_bind, lookup_insert_eq, Hcol. simpl.
  rewrite !run_bind, lookup_insert_eq. simpl.
  now rewrite insert_insert_eq, normalize_column.
Qed.

End PandasFacts.

(* ===================================================================== *)
(** ** Facts about the application *)
(* ===================================================================== *)

Module AppFacts.
Import Pandas App.

(** *** [max] *)

Lemma fold_max_spec (r : list Q) (x : Q) :
  let m := fold_left (fun m y => if Qle_bool y m then m else y) r x in
  m ∈ x :: r /\ (x <= m)%Q /\ Forall (fun y => (y <= m)%Q) r.
Proof.
  revert x. induction r as [|y r IH]; intros x; simpl.
  - split; [left|]. split; [apply Qle_refl|constructor].
  - destruct (Qle_bool y x) eqn:Hyx.
    + destruct (IH x) as (Hin & Hle & Hall).
      split; [|split; [assumption|constructor; [|assumption]]].
      * apply elem_of_cons in Hin as [->|Hin]; [left|right; right; exact Hin].
      * apply Qle_bool_iff in Hyx. eapply Qle_trans; eassumption.
    + destruct (IH y) as (Hin & Hle & Hall).
      split; [right; exact Hin|]. split; [|constructor; assumption].
      assert (x < y)%Q as Hlt.
      { apply Qnot_le_lt. intros H. apply Qle_bool_iff in H. congruence. }
      eapply Qle_trans; [apply Qlt_le_weak; exact Hlt|exact Hle].
Qed.

(** On a non-empty sequence [max] returns one of its items, and no item is
    larger. *)
Lemma py_max_spec (l : list Q) :
  l <> [] ->
  exists m, py_max l = Return m /\ m ∈ l /\ Forall (fun y => (y <= m)%Q) l.
Proof.
  destruct l as [|x r]; [congruence|]. intros _.
  destruct (fold_max_spec r x) as (Hin & Hle & Hall).
  eexists. split; [reflexivity|]. split; [exact Hin|].
  constructor; assumption.
Qed.

(** *** The loader *)

Lemma load_model_body_run (s : state) :
  load_model_body s =
  match fs s !! model_path with
  | None =>
      (Return None, s,
       [EvExists model_path; EvRender (StError (ArtifactNotFound model_path))])
  | Some (Raise e) =>
      if is_exception e
      then (Return None, s,
            [EvExists model_path; EvLoad model_path;
             EvRender (StError (ArtifactCorrupt e))])
      else (Raise e, s, [EvExists model_path; EvLoad model_path])
  | Some (Return m) =>
      (Return (Some {| handle_id := next_id s; handle_model := m |}),
       {| fs := fs s; cache := cache s; next_id := Datatypes.S (next_id s) |},
       [EvExists model_path; EvLoad model_path])
  end.
Proof.
  unfold load_model_body, try_except, os_path_exists, joblib_load.
  rewrite run_bind.
  destruct (fs s !! model_path) as [[m|e]|] eqn:Hfs.
  - rewrite bool_decide_true by eauto. cbn [negb].
    rewrite run_bind, Hfs. reflexivity.
  - rewrite bool_decide_true by eauto. cbn [negb].
    rewrite run_bind, Hfs. now destruct (is_exception e).
  - rewrite bool_decide_false by (intros [? ?]; discriminate). reflexivity.
Qed.

Lemma load_model_run (s : state) :
  load_model s =
  match cache s with
  | Some (v, els) => (Return v, s, EvRender <$> els)
  | None =>
      match fs s !! model_path with
      | None =>
          (Return None,
           set_cache (Some (None, [StError (ArtifactNotFound model_path)])) s,
           [EvExists model_path;
            EvRender (StError (ArtifactNotFound model_path))])
      | Some (Raise e) =>
          if is_exception e
          then (Return None,
                set_cache (Some (None, [StError (ArtifactCorrupt e)])) s,
                [EvExists model_path; EvLoad model_path;
                 EvRender (StError (ArtifactCorrupt e))])
          else (Raise e, s, [EvExists model_path; EvLoad model_path])
      | Some (Return m) =>
          let h := {| handle_id := next_id s; handle_model := m |} in
          (Return (Some h),
           {| fs := fs s; cache := Some (Some h, []);
              next_id := Datatypes.S (next_id s) |},
           [EvExists model_path; EvLoad model_path])
      end
  end.
Proof.
  unfold load_model, cache_resource.
  destruct (cache s) as [[v els]|]; [reflexivity|].
  rewrite load_model_body_run.
  destruct (fs s !! model_path) as [[m|e]|]; [reflexivity| |reflexivity].
  now destruct (is_exception e).
Qed.

Lemma load_model_hit (s : state) v els :
  cache s = Some (v, els) -> load_model s = (Return v, s, EvRender <$> els).
Proof. intros H. now rewrite load_model_run, H. Qed.

(** A call that returns leaves the value it returned in the cache. *)
Lemma load_model_returned (s : state) v :
  result_of (load_model s) = Return v ->
  exists els, cache (state_of (load_model s)) = Some (v, els).
Proof.
  rewrite load_model_run.
  destruct (cache s) as [[v' els]|] eqn:Hc.
  - intros [= ->]. now exists els.
  - destruct (fs s !! model_path) as [[m|e]|];
      [|destruct (is_exception e)|]; intros [= <-]; eexists; reflexivity.
Qed.

(** A call that raises found nothing in the cache and stores nothing: the
    artifact raised an exception that is no [Exception]. *)
Lemma load_model_raised (s : state) e :
  result_of (load_model s) = Raise e ->
  load_model s = (Raise e, s, [EvExists model_path; EvLoad model_path]) /\
  cache s = None /\ fs s !! model_path = Some (Raise e) /\
  is_exception e = false.
Proof.
  rewrite load_model_run.
  destruct (cache s) as [[v' els]|] eqn:Hc; [discriminate|].
  destruct (fs s !! model_path) as [[m|e']|]; [discriminate| |discriminate].
  destruct (is_exception e') eqn:He; [discriminate|].
  intros [= ->]. now rewrite He.
Qed.

Lemma rendered_no_loads (els : list element) : loads (EvRender <$> els) = 0.
Proof. unfold loads. induction els as [|e els IH]; [reflexivity|exact IH]. Qed.



(** *** The prediction block *)

(** What the block does, by what the model answers. *)
Lemma predict_and_show_run (model : handle) (X : DataFrame) (s : state) :
  predict_and_show model X s =
  match predict (handle_model model) X with
  | Raise e =>
      handled s [EvRender Spinner; EvPredict (handle_id model) X] e
  | Return a =>
    match a !! 0 with
    | None =>
        handled s [EvRender Spinner; EvPredict (handle_id model) X] index_error
    | Some prediction =>
      match predict_proba (handle_model model) X with
      | Raise e =>
          handled s [EvRender Spinner; EvPredict (handle_id model) X;
                     EvPredictProba (handle_id model) X] e
      | Return b =>
        (Return tt, s,
         [EvRender Spinner; EvPredict (handle_id model) X;
          EvPredictProba (handle_id model) X] ++
         match b !! 0 with
         | None => [EvRender (StError (PredictionFailure index_error))]
         | Some proba =>
           match proba !! 1 with
           | None => [EvRender (StError (PredictionFailure index_error))]
           | Some proba_chd =>
             [EvRender Rule; EvRender ResultsHeader;
              EvRender (Metric Prediction (Risk (risk_of prediction)));
              EvRender (Metric ProbabiliteCHD (Percent proba_chd))] ++
             match py_max proba with
             | Raise e => [EvRender (StError (PredictionFailure e))]
             | Return m =>
               [EvRender (Metric Confiance (Percent m));
                EvRender (if (prediction =? 1)%Z
                          then StError (HighRiskAlert proba_chd)
                          else StSuccess proba_chd);
                EvRender LevelHeader;
                EvRender (if Qle_bool 0 proba_chd && Qle_bool proba_chd 1
                          then Progress proba_chd
                          else StError (PredictionFailure
                                 (Exception "StreamlitAPIException"
                                    "Progress Value has invalid value [0.0, 1.0]")))]
             end
           end
         end)
      end
    end
  end.
Proof.
  unfold predict_and_show, try_except, call_predict, call_predict_proba,
    st_progress, render, emit, lift, py_index, index_error, handled,
    mbind, prog_bind, bind, ret, raise.
  cbn -[py_max is_exception].
  destruct (predict (handle_model model) X) as [a|e];
    [|now destruct (is_exception e)].
  destruct (a !! 0) as [prediction|]; [|reflexivity]. cbn -[py_max is_exception].
  destruct (predict_proba (handle_model model) X) as [b|e];
    [|now destruct (is_exception e)].
  destruct (b !! 0) as [proba|]; [|reflexivity]. cbn -[py_max is_exception].
  destruct (proba !! 1) as [proba_chd|]; [|reflexivity]. cbn -[py_max is_exception].
  destruct (py_max proba) as [m|e] eqn:Hm.
  - cbn. destruct (prediction =? 1)%Z;
      destruct (Qle_bool 0 proba_chd && Qle_bool proba_chd 1); reflexivity.
  - destruct proba as [|x proba]; [|discriminate Hm].
    injection Hm as <-. reflexivity.
Qed.

(** Split on everything the block inspects. *)
Ltac block_cases :=
  rewrite ?predict_and_show_run;
  unfold handled, index_error, events_of, result_of, state_of;
  cbn [fst snd is_exception]; repeat case_match; try reflexivity.

(** The block leaves the state alone, whatever the model does. *)
Lemma predict_and_show_state (model : handle) (X : DataFrame) (s : state) :
  state_of (predict_and_show model X s) = s.
Proof. block_cases. Qed.

(** What it returns and emits does not depend on the state. *)
Lemma predict_and_show_result_any (model : handle) (X : DataFrame) (s s' : state) :
  result_of (predict_and_show model X s) = result_of (predict_and_show model X s').
Proof. block_cases. Qed.

Lemma predict_and_show_events (model : handle) (X : DataFrame) (s s' : state) :
  events_of (predict_and_show model X s) = events_of (predict_and_show model X s').
Proof. block_cases. Qed.

(** The block raises only what the model raised and line 194 does not
    catch. *)
Lemma predict_and_show_result (model : handle) (X : DataFrame) (s : state) :
  result_of (predict_and_show model X s) =
  match predict (handle_model model) X with
  | Raise e => if is_exception e then Return tt else Raise e
  | Return a =>
      match a !! 0 with
      | None => Return tt
      | Some _ =>
          match predict_proba (handle_model model) X with
          | Raise e => if is_exception e then Return tt else Raise e
          | Return _ => Return tt
          end
      end
  end.
Proof. block_cases. Qed.

Lemma model_calls_run (model : handle) (X : DataFrame) (s : state) :
  model_calls (events_of (predict_and_show model X s)) =
  EvPredict (handle_id model) X ::
  match predict (handle_model model) X with
  | Return a =>
      match a !! 0 with
      | Some _ => [EvPredictProba (handle_id model) X]
      | None => []
      end
  | Raise _ => []
  end.
Proof. block_cases. Qed.




(** *** A run of the script, a session *)

Lemma script_run_run (f : form) (s : state) :
  script_run f s =
  match result_of (load_model s) with
  | Raise e => (Raise e, state_of (load_model s), header ++ events_of (load_model s))
  | Return None =>
      (Return tt, state_of (load_model s), header ++ events_of (load_model s))
  | Return (Some model) =>
      if submitted f
      then
        (result_of (prediction_block model f (state_of (load_model s))),
         state_of (load_model s),
         header ++ events_of (load_model s) ++
         [EvRender FormHeader; EvRender Form] ++
         events_of (prediction_block model f (state_of (load_model s))) ++
         match result_of (prediction_block model f (state_of (load_model s))) with
         | Return _ => [EvRender Rule; EvRender Footer]
         | Raise _ => []
         end)
      else
        (Return tt, state_of (load_model s),
         header ++ events_of (load_model s) ++
         [EvRender FormHeader; EvRender Form; EvRender Rule; EvRender Footer])
  end.
Proof.
  unfold script_run, render, emit, mbind, prog_bind, bind, ret. cbn beta iota.
  destruct (load_model s) as [[r s1] evs] eqn:Hr.
  unfold result_of at 1, events_of at 1 2 3 4, state_of at 1 2 3 4 5 6 7.
  cbn [fst snd].
  destruct r as [[model|]|e]; cbn beta iota;
    [|now rewrite app_nil_r|reflexivity].
  destruct (submitted f); cbn beta iota; [|reflexivity].
  unfold prediction_block.
  pose proof (predict_and_show_state model (input_data f) s1) as Hst.
  destruct (predict_and_show model (input_data f) s1) as [[rb sb] evb].
  unfold state_of, result_of, events_of in *. cbn [fst snd] in *. subst sb.
  destruct rb as [[]|e]; [reflexivity|].
  now rewrite app_nil_r.
Qed.

Lemma script_run_state (f : form) (s : state) :
  state_of (script_run f s) = state_of (load_model s).
Proof.
  rewrite script_run_run.
  destruct (result_of (load_model s)) as [[model|]|e];
    [destruct (submitted f)|..]; reflexivity.
Qed.

Lemma script_run_events (f : form) (s : state) :
  exists tail, events_of (script_run f s) = header ++ events_of (load_model s) ++ tail /\
    tail =
    match result_of (load_model s) with
    | Return (Some model) =>
        if submitted f
        then [EvRender FormHeader; EvRender Form] ++
             events_of (prediction_block model f (state_of (load_model s))) ++
             match result_of (prediction_block model f (state_of (load_model s))) with
             | Return _ => [EvRender Rule; EvRender Footer]
             | Raise _ => []
             end
        else [EvRender FormHeader; EvRender Form; EvRender Rule; EvRender Footer]
    | _ => []
    end.
Proof.
  rewrite script_run_run.
  destruct (result_of (load_model s)) as [[model|]|e];
    [destruct (submitted f)|..]; eexists; (split; [|reflexivity]);
    unfold events_of at 1; cbn [snd]; now rewrite ?app_nil_r.
Qed.


Lemma session_run_cons (f : form) (forms : list form) (s : state) :
  session (f :: forms) s =
  (result_of (session forms (state_of (script_run f s))),
   state_of (session forms (state_of (script_run f s))),
   events_of (script_run f s) ++
   events_of (session forms (state_of (script_run f s)))).
Proof.
  cbn [session]. unfold attempt, mbind, prog_bind, bind.
  destruct (script_run f s) as [[r s1] evs].
  change (state_of (r, s1, evs)) with s1.
  change (events_of (r, s1, evs)) with evs.
  now destruct (session forms s1) as [[r' s2] evs'].
Qed.



Lemma session_result (forms : list form) (s : state) :
  result_of (session forms s) = Return tt.
Proof.
  revert s. induction forms as [|f forms IH]; intros s; [reflexivity|].
  rewrite session_run_cons. apply IH.
Qed.

(** Without the decorator every call reads the file and builds a new
    object. *)
Lemma load_model_body_twice (s : state) (m : Model) :
  fs s !! model_path = Some (Return m) ->
  let r1 := load_model_body s in
  let r2 := load_model_body (state_of r1) in
  exists h1 h2,
    result_of r1 = Return (Some h1) /\ result_of r2 = Return (Some h2) /\
    handle_id h1 <> handle_id h2 /\
    loads (events_of r1 ++ events_of r2) = 2.
Proof.
  intros Hfs. cbn zeta. rewrite (load_model_body_run s), Hfs.
  unfold state_of at 1 2. cbn [fst snd].
  rewrite load_model_body_run. cbn [fs]. rewrite Hfs.
  eexists _, _. repeat split. cbn. lia.
Qed.

(** A probability is shown as "Probabilite CHD" only if it is the entry at
    index 1 of the first row [predict_proba] returned. *)
Lemma shown_probability_inv (model : handle) (X : DataFrame) (s : state) (v : Q) :
  (ProbabiliteCHD, Percent v) ∈ metrics (events_of (predict_and_show model X s)) ->
  exists b proba,
    predict_proba (handle_model model) X = Return b /\
    b !! 0 = Some proba /\ proba !! 1 = Some v.
Proof.
  rewrite predict_and_show_run. unfold handled, index_error.
  cbn [is_exception]. intros H.
  repeat case_match; unfold events_of in H; cbn in H;
    repeat match goal with
           | H : _ ∈ _ :: _ |- _ => inversion H; clear H; subst
           | H : _ ∈ [] |- _ => inversion H
           end;
    eauto.
Qed.

(** The defaults of the widgets satisfy the bounds of the widgets. *)
Example default_form_valid : form_valid Fixtures.default_form.
Proof.
  unfold form_valid. cbn.
  repeat split; try lia; try discriminate. left.
Qed.

(** A first run of the script on the defaults, with the artifact on disk
    and a model that answers class 1 with probabilities 0.3 / 0.7. *)
Example script_run_default :
  events_of (script_run Fixtures.default_form Fixtures.start_state) =
  header ++
  [EvExists model_path; EvLoad model_path;
   EvRender FormHeader; EvRender Form; EvRender Spinner;
   EvPredict 0 (input_data Fixtures.default_form);
   EvPredictProba 0 (input_data Fixtures.default_form);
   EvRender Rule; EvRender ResultsHeader;
   EvRender (Metric Prediction (Risk HighRisk));
   EvRender (Metric ProbabiliteCHD (Percent (7 # 10)));
   EvRender (Metric Confiance (Percent (7 # 10)));
   EvRender (StError (HighRiskAlert (7 # 10)));
   EvRender LevelHeader; EvRender (Progress (7 # 10));
   EvRender Rule; EvRender Footer].
Proof. reflexivity. Qed.

(** Without the artifact the run stops after reporting it, and the next run
    replays the report from the cache without looking at the disk. *)
Example session_without_artifact :
  events_of (session [Fixtures.default_form; Fixtures.default_form]
               Fixtures.bare_state) =
  header ++
  [EvExists model_path; EvRender (StError (ArtifactNotFound model_path))] ++
  header ++
  [EvRender (StError (ArtifactNotFound model_path))].
Proof. reflexivity. Qed.

End AppFacts.

(* ===================================================================== *)
(** ** The properties of the specification *)
(* ===================================================================== *)

Import PyStr PyStrFacts Pandas PandasFacts App AppFacts.

(** *** Normalisation of famhist *)

(** C8: the function [clean_famhist] applies to each value of the famhist
    column is idempotent.  It holds for every string, so in particular for
    every casing or whitespace variant of "present" and "absent". *)
Theorem normalize_idempotent (x : string) :
  normalize (normalize x) = normalize x.
Proof.
  rewrite !normalize_strip_lower.
  now rewrite strip_lower, lower_idem, strip_idem.
Qed.

(** The variants the specification speaks of are sent to the two
    categories, which are fixed points. *)
Lemma normalize_variant_category (w x : string) :
  w ∈ ["present"; "absent"]%string -> variant_of w x ->
  normalize x = w /\ normalize w = w.
Proof.
  intros Hw Hx.
  assert (strip w = w /\ normalize w = w) as [Hs Hn].
  { apply elem_of_cons in Hw as [->|Hw]; [now split|].
    apply list_elem_of_singleton in Hw as ->. now split. }
  split; [now apply normalize_variant|exact Hn].
Qed.

(** C10: [clean_famhist] works on a copy.  On a frame whose famhist column
    holds strings it returns a new object; the frame of the caller is still
    in the store as it was, and so is every other object; the new frame has
    the same columns in the same order, every column but famhist as given,
    and in famhist each value stripped and lowercased, whatever the value
    is.  No exception is raised. *)
Theorem clean_famhist_frame {E : Type} (X : nat) (h : gmap nat DataFrame)
    (df : DataFrame) (l : list string) :
  h !! X = Some df ->
  df_getitem df "famhist" = Some (ColStr l) ->
  exists (X' : nat) (df' : DataFrame),
    result_of (@clean_famhist E X h) = Return X' /\
    X' <> X /\
    state_of (@clean_famhist E X h) !! X = Some df /\
    (forall r, r <> X' -> state_of (@clean_famhist E X h) !! r = h !! r) /\
    state_of (@clean_famhist E X h) !! X' = Some df' /\
    columns df' = columns df /\
    (forall name, name <> "famhist"%string ->
                  df_getitem df' name = df_getitem df name) /\
    df_getitem df' "famhist" =
      Some (ColStr ((fun v => lower (strip v)) <$> l)).
Proof.
  intros HX Hcol.
  rewrite (clean_famhist_run X h df l HX Hcol).
  unfold result_of, state_of. cbn [fst snd].
  assert (fresh (dom h) <> X) as Hne.
  { intros Heq. apply (is_fresh (dom h)). rewrite Heq.
    apply elem_of_dom. eauto. }
  eexists _, _. split; [reflexivity|]. split; [exact Hne|].
  split; [now rewrite lookup_insert_ne|].
  split; [intros r Hr; now rewrite lookup_insert_ne|].
  split; [apply lookup_insert_eq|].
  split; [eapply columns_setitem; eassumption|].
  split.
  - intros name Hname. apply df_getitem_setitem_ne. congruence.
  - rewrite df_getitem_setitem_eq. do 2 f_equal.
    apply list_fmap_ext. intros _ v _. apply normalize_strip_lower.
Qed.

Lemma clean_famhist_frame_witness :
  ({[ 4 := Fixtures.sample_frame ]} : gmap nat DataFrame) !! 4
    = Some Fixtures.sample_frame /\
  df_getitem Fixtures.sample_frame "famhist"
    = Some (ColStr [" Present "; "unknown"]%string) /\
  exists (X' : nat) (df' : DataFrame),
    result_of (@clean_famhist Empty_set 4 {[ 4 := Fixtures.sample_frame ]})
      = Return X' /\
    X' <> 4 /\
    state_of (@clean_famhist Empty_set 4 {[ 4 := Fixtures.sample_frame ]}) !! 4
      = Some Fixtures.sample_frame /\
    (forall r, r <> X' ->
       state_of (@clean_famhist Empty_set 4 {[ 4 := Fixtures.sample_frame ]}) !! r
       = ({[ 4 := Fixtures.sample_frame ]} : gmap nat DataFrame) !! r) /\
    state_of (@clean_famhist Empty_set 4 {[ 4 := Fixtures.sample_frame ]}) !! X'
      = Some df' /\
    columns df' = columns Fixtures.sample_frame /\
    (forall name, name <> "famhist"%string ->
                  df_getitem df' name = df_getitem Fixtures.sample_frame name) /\
    df_getitem df' "famhist" =
      Some (ColStr ((fun v => lower (strip v)) <$> [" Present "; "unknown"]%string)).
Proof.
  split; [reflexivity|]. split; [reflexivity|].
  apply (@clean_famhist_frame Empty_set 4 {[ 4 := Fixtures.sample_frame ]}
           Fixtures.sample_frame [" Present "; "unknown"]%string);
    reflexivity.
Defined.

(** *** The loader *)






(** The cache, not the file system, decides a later call: whatever is on
    disk by then, a state with the same cache entry gives the same handle. *)
Lemma load_model_cached_any_fs (s s' : state) v :
  result_of (load_model s) = Return v ->
  cache s' = cache (state_of (load_model s)) ->
  result_of (load_model s') = Return v /\
  loads (events_of (load_model s')) = 0.
Proof.
  intros Hv Heq.
  destruct (load_model_returned s v Hv) as (els & Hc).
  rewrite Hc in Heq. rewrite (load_model_hit _ v els Heq).
  split; [reflexivity|apply rendered_no_loads].
Qed.

(** *** The prediction block *)

(** C1: when both model calls return and the first row of probabilities
    has an entry at index 1, the three metrics shown are the label of the
    predicted class, the entry at index 1 of that row, and the largest
    entry of that row. *)
Theorem prediction_result_from_proba (model : handle) (f : form) (s : state)
    (a : list Z) (prediction : Z) (b : list (list Q)) (proba : list Q)
    (proba_chd : Q) :
  predict (handle_model model) (input_data f) = Return a ->
  a !! 0 = Some prediction ->
  predict_proba (handle_model model) (input_data f) = Return b ->
  b !! 0 = Some proba ->
  proba !! 1 = Some proba_chd ->
  exists m : Q,
    py_max proba = Return m /\
    m ∈ proba /\ Forall (fun y => (y <= m)%Q) proba /\
    metrics (events_of (prediction_block model f s)) =
      [ (Prediction, Risk (risk_of prediction));
        (ProbabiliteCHD, Percent proba_chd);
        (Confiance, Percent m) ].
Proof.
  intros Ha Hp Hb Hrow Hq.
  destruct (py_max_spec proba) as (m & Hm & Hin & Hall).
  { intros ->. discriminate. }
  exists m. repeat (split; [assumption|]).
  unfold prediction_block. rewrite predict_and_show_run.
  rewrite Ha, Hp, Hb, Hrow, Hq, Hm. unfold events_of. cbn [snd].
  destruct (prediction =? 1)%Z;
    destruct (Qle_bool 0 proba_chd && Qle_bool proba_chd 1); reflexivity.
Qed.

Lemma prediction_result_from_proba_witness :
  predict Fixtures.stub_model (input_data Fixtures.default_form) = Return [1%Z] /\
  [1%Z] !! 0 = Some 1%Z /\
  predict_proba Fixtures.stub_model (input_data Fixtures.default_form)
    = Return [[(3 # 10)%Q; (7 # 10)%Q]] /\
  [[(3 # 10)%Q; (7 # 10)%Q]] !! 0 = Some [(3 # 10)%Q; (7 # 10)%Q] /\
  [(3 # 10)%Q; (7 # 10)%Q] !! 1 = Some (7 # 10)%Q /\
  exists m : Q,
    py_max [(3 # 10)%Q; (7 # 10)%Q] = Return m /\
    m ∈ [(3 # 10)%Q; (7 # 10)%Q] /\
    Forall (fun y => (y <= m)%Q) [(3 # 10)%Q; (7 # 10)%Q] /\
    metrics (events_of (prediction_block Fixtures.stub_handle
                          Fixtures.default_form Fixtures.start_state)) =
      [ (Prediction, Risk (risk_of 1));
        (ProbabiliteCHD, Percent (7 # 10));
        (Confiance, Percent m) ].
Proof.
  repeat (split; [reflexivity|]).
  apply (prediction_result_from_proba Fixtures.stub_handle Fixtures.default_form
           Fixtures.start_state [1%Z] 1%Z [[(3 # 10)%Q; (7 # 10)%Q]]);
    reflexivity.
Defined.

(** What line 126 puts into the frame is famhist lowercased, and nothing
    more is done to it before the model is called. *)
Lemma input_data_famhist (f : form) :
  df_getitem (input_data f) "famhist" = Some (ColStr [lower (famhist f)]).
Proof. reflexivity. Qed.










(** C7, as the specification has it, fails: an exception that is no
    [Exception] raised by the model (here [SystemExit]) is not caught by
    line 194; nothing is reported and the block raises. *)
Lemma system_exit_escapes_block :
  ~ (forall (model : handle) (f : form) (s : state) (e : exn),
       predict (handle_model model) (input_data f) = Raise e ->
       result_of (prediction_block model f s) = Return tt /\
       failures (events_of (prediction_block model f s)) = [PredictionFailure e]).
Proof.
  intros H.
  destruct (H Fixtures.exiting_handle Fixtures.default_form Fixtures.start_state
              Fixtures.system_exit eq_refl) as [Hres _].
  discriminate Hres.
Qed.

(** C7, amended: let [predict] raise, or [predict] return and
    [predict_proba] raise.  The block leaves the state alone and shows no
    metric.  If what was raised is an [Exception], the block returns
    normally, all it renders is the spinner and the error carrying the
    exception, and the run of the script around it returns normally and
    ends with the footer.  If it is no [Exception], line 194 does not catch
    it: the block raises it, nothing is reported, and the run of the script
    ends there, raising it too. *)
Theorem model_exception_reported (model : handle) (f : form) (s : state) (e : exn) :
  predict (handle_model model) (input_data f) = Raise e \/
  (exists a p, predict (handle_model model) (input_data f) = Return a /\
               a !! 0 = Some p /\
               predict_proba (handle_model model) (input_data f) = Raise e) ->
  result_of (load_model s) = Return (Some model) ->
  submitted f = true ->
  state_of (prediction_block model f s) = s /\
  metrics (events_of (prediction_block model f s)) = [] /\
  match e with
  | Exception _ _ =>
      result_of (prediction_block model f s) = Return tt /\
      rendered (events_of (prediction_block model f s)) =
        [Spinner; StError (PredictionFailure e)] /\
      failures (events_of (prediction_block model f s)) = [PredictionFailure e] /\
      result_of (script_run f s) = Return tt /\
      last (events_of (script_run f s)) = Some (EvRender Footer)
  | BaseException _ _ =>
      result_of (prediction_block model f s) = Raise e /\
      rendered (events_of (prediction_block model f s)) = [Spinner] /\
      failures (events_of (prediction_block model f s)) = [] /\
      result_of (script_run f s) = Raise e /\
      exists ev, last (events_of (script_run f s)) = Some ev /\
                 is_model_call ev = true
  end.
Proof.
  intros H Hload Hsub.
  split; [apply predict_and_show_state|].
  rewrite script_run_run, Hload, Hsub.
  unfold prediction_block.
  rewrite (predict_and_show_run model (input_data f) (state_of (load_model s))).
  rewrite (predict_and_show_run model (input_data f) s).
  unfold handled, result_of, events_of.
  destruct H as [He|(a & p & Ha & Hp & He)].
  - rewrite He.
    destruct e as [kind msg|kind msg]; cbn [is_exception fst snd].
    + repeat split; try reflexivity. now rewrite !last_app.
    + repeat split; try reflexivity.
      eexists. rewrite !last_app. split; reflexivity.
  - rewrite Ha, Hp, He.
    destruct e as [kind msg|kind msg]; cbn [is_exception fst snd].
    + repeat split; try reflexivity. now rewrite !last_app.
    + repeat split; try reflexivity.
      eexists. rewrite !last_app. split; reflexivity.
Qed.

Lemma model_exception_reported_witness :
  (predict Fixtures.broken_model (input_data Fixtures.default_form)
     = Raise Fixtures.value_error \/
   (exists a p,
      predict Fixtures.broken_model (input_data Fixtures.default_form) = Return a /\
      a !! 0 = Some p /\
      predict_proba Fixtures.broken_model (input_data Fixtures.default_form)
        = Raise Fixtures.value_error)) /\
  result_of (load_model Fixtures.warm_broken_state)
    = Return (Some Fixtures.broken_handle) /\
  submitted Fixtures.default_form = true /\
  state_of (prediction_block Fixtures.broken_handle Fixtures.default_form
              Fixtures.warm_broken_state) = Fixtures.warm_broken_state /\
  metrics (events_of (prediction_block Fixtures.broken_handle
                        Fixtures.default_form Fixtures.warm_broken_state)) = [] /\
  result_of (prediction_block Fixtures.broken_handle Fixtures.default_form
               Fixtures.warm_broken_state) = Return tt /\
  rendered (events_of (prediction_block Fixtures.broken_handle
                         Fixtures.default_form Fixtures.warm_broken_state)) =
    [Spinner; StError (PredictionFailure Fixtures.value_error)] /\
  failures (events_of (prediction_block Fixtures.broken_handle
                         Fixtures.default_form Fixtures.warm_broken_state)) =
    [PredictionFailure Fixtures.value_error] /\
  result_of (script_run Fixtures.default_form Fixtures.warm_broken_state) = Return tt /\
  last (events_of (script_run Fixtures.default_form Fixtures.warm_broken_state))
    = Some (EvRender Footer).
Proof.
  split; [left; reflexivity|]. split; [reflexivity|]. split; [reflexivity|].
  apply (model_exception_reported Fixtures.broken_handle Fixtures.default_form
           Fixtures.warm_broken_state Fixtures.value_error);
    [left; reflexivity|reflexivity|reflexivity].
Defined.




(** *** Confidence *)

(** C6, as the specification has it, fails: with the sum of the two
    entries only within the tolerance 1e-6 of 1, both can lie below 0.5. *)
Lemma confidence_below_half :
  ~ (forall a b m : Q,
       (0 <= a)%Q -> (0 <= b)%Q ->
       (1 - (1 # 1000000) <= a + b)%Q /\ (a + b <= 1 + (1 # 1000000))%Q ->
       py_max [a; b] = Return m ->
       ((1 # 2) <= m)%Q /\ (m <= 1)%Q).
Proof.
  intros H.
  destruct (H (4999997 # 10000000)%Q (4999997 # 10000000)%Q
              (4999997 # 10000000)%Q) as [Hlow _].
  - discriminate.
  - discriminate.
  - split; discriminate.
  - reflexivity.
  - apply Hlow. reflexivity.
Qed.

(** C6, amended: for two nonnegative entries whose sum is within [eps] of
    1, [max] returns an entry between (1 - eps) / 2 and 1 + eps; with
    [eps = 0], a sum of exactly 1, that is between 1/2 and 1.  That entry
    is the confidence of the prediction: whenever both model calls return
    and the first row of probabilities is these two entries, the block
    shows it as "Confiance", beside the label and the second entry as the
    probability of CHD. *)
Theorem confidence_two_class (a b eps : Q) :
  (0 <= a)%Q -> (0 <= b)%Q ->
  (1 - eps <= a + b)%Q -> (a + b <= 1 + eps)%Q ->
  exists m : Q,
    py_max [a; b] = Return m /\
    ((1 - eps) / 2 <= m)%Q /\ (m <= 1 + eps)%Q /\
    forall (model : handle) (f : form) (s : state)
           (preds : list Z) (prediction : Z) (rows : list (list Q)),
      predict (handle_model model) (input_data f) = Return preds ->
      preds !! 0 = Some prediction ->
      predict_proba (handle_model model) (input_data f) = Return rows ->
      rows !! 0 = Some [a; b] ->
      metrics (events_of (prediction_block model f s)) =
        [ (Prediction, Risk (risk_of prediction));
          (ProbabiliteCHD, Percent b);
          (Confiance, Percent m) ].
Proof.
  intros Ha Hb Hlo Hhi.
  exists (if Qle_bool b a then a else b).
  split; [reflexivity|].
  split; [|split].
  - unfold Qdiv. change (/ 2)%Q with (1 # 2)%Q.
    destruct (Qle_bool b a) eqn:Hba.
    + apply Qle_bool_iff in Hba. lra.
    + assert (a < b)%Q as Hlt.
      { apply Qnot_le_lt. intros H. apply Qle_bool_iff in H. congruence. }
      lra.
  - destruct (Qle_bool b a) eqn:Hba.
    + apply Qle_bool_iff in Hba. lra.
    + lra.
  - intros model f s preds prediction rows Hp Hp0 Hr Hr0.
    unfold prediction_block. rewrite predict_and_show_run.
    rewrite Hp, Hp0, Hr, Hr0. unfold events_of. cbn -[Qle_bool].
    destruct (prediction =? 1)%Z;
      destruct (Qle_bool 0 b && Qle_bool b 1); reflexivity.
Qed.

Lemma confidence_two_class_witness :
  (0 <= 3 # 10)%Q /\ (0 <= 7 # 10)%Q /\
  (1 - 0 <= (3 # 10) + (7 # 10))%Q /\ ((3 # 10) + (7 # 10) <= 1 + 0)%Q /\
  exists m : Q,
    py_max [(3 # 10)%Q; (7 # 10)%Q] = Return m /\
    ((1 - 0) / 2 <= m)%Q /\ (m <= 1 + 0)%Q /\
    forall (model : handle) (f : form) (s : state)
           (preds : list Z) (prediction : Z) (rows : list (list Q)),
      predict (handle_model model) (input_data f) = Return preds ->
      preds !! 0 = Some prediction ->
      predict_proba (handle_model model) (input_data f) = Return rows ->
      rows !! 0 = Some [(3 # 10)%Q; (7 # 10)%Q] ->
      metrics (events_of (prediction_block model f s)) =
        [ (Prediction, Risk (risk_of prediction));
          (ProbabiliteCHD, Percent (7 # 10));
          (Confiance, Percent m) ].
Proof.
  do 4 (split; [discriminate|]).
  apply (confidence_two_class (3 # 10) (7 # 10) 0); discriminate.
Defined.

(* ===================================================================== *)
(** ** Further properties of the code *)
(* ===================================================================== *)

(** *** [clean_famhist] on other frames, and composed *)

Lemma df_setitem_twice (X : DataFrame) (name : string) (c c' : column) :
  df_setitem (df_setitem X name c) name c' = df_setitem X name c'.
Proof.
  induction X as [|[n c0] X IH]; cbn [df_setitem].
  - now rewrite String.eqb_refl.
  - destruct (String.eqb n name) eqn:En; cbn [df_setitem]; rewrite En;
      [reflexivity|now rewrite IH].
Qed.

Lemma normalize_twice_column (l : list string) :
  normalize <$> (normalize <$> l) = normalize <$> l.
Proof.
  rewrite <- list_fmap_compose. apply list_fmap_ext. intros _ v _. cbn.
  rewrite !normalize_strip_lower.
  now rewrite strip_lower, lower_idem, strip_idem.
Qed.

Lemma normalize_lower (v : string) : normalize (lower v) = normalize v.
Proof.
  rewrite !normalize_strip_lower. now rewrite strip_lower, lower_idem.
Qed.

(** X1: on a frame without a famhist column [clean_famhist] raises
    [KeyError] for that name; the copy has been made by then, but the frame
    of the caller and every object that existed are as they were. *)
Theorem clean_famhist_missing_column {E : Type} (X : nat) (h : gmap nat DataFrame)
    (df : DataFrame) :
  h !! X = Some df ->
  df_getitem df "famhist" = None ->
  result_of (@clean_famhist E X h) = Raise (Exception "KeyError" "famhist") /\
  state_of (@clean_famhist E X h) !! X = Some df /\
  (forall r, is_Some (h !! r) -> state_of (@clean_famhist E X h) !! r = h !! r).
Proof.
  intros HX Hcol.
  assert (@clean_famhist E X h =
          (Raise (Exception "KeyError" "famhist"), <[fresh (dom h) := df]> h, []))
    as ->.
  { unfold clean_famhist, df_copy, getitem, deref, alloc.
    rewrite !run_bind, HX. cbn -[fresh].
    rewrite !run_bind, lookup_insert_eq, Hcol. reflexivity. }
  unfold result_of, state_of. cbn [fst snd].
  assert (forall r, is_Some (h !! r) -> fresh (dom h) <> r) as Hfresh.
  { intros r Hr Heq. apply (is_fresh (dom h)). rewrite Heq.
    now apply elem_of_dom. }
  split; [reflexivity|]. split.
  - rewrite lookup_insert_ne; [exact HX|]. apply Hfresh. eauto.
  - intros r Hr. rewrite lookup_insert_ne; [reflexivity|]. now apply Hfresh.
Qed.

Lemma clean_famhist_missing_column_witness :
  ({[ 2 := Fixtures.frame_without_famhist ]} : gmap nat DataFrame) !! 2
    = Some Fixtures.frame_without_famhist /\
  df_getitem Fixtures.frame_without_famhist "famhist" = None /\
  result_of (@clean_famhist Empty_set 2 {[ 2 := Fixtures.frame_without_famhist ]})
    = Raise (Exception "KeyError" "famhist") /\
  state_of (@clean_famhist Empty_set 2 {[ 2 := Fixtures.frame_without_famhist ]}) !! 2
    = Some Fixtures.frame_without_famhist /\
  (forall r, is_Some (({[ 2 := Fixtures.frame_without_famhist ]}
                         : gmap nat DataFrame) !! r) ->
     state_of (@clean_famhist Empty_set 2 {[ 2 := Fixtures.frame_without_famhist ]}) !! r
     = ({[ 2 := Fixtures.frame_without_famhist ]} : gmap nat DataFrame) !! r).
Proof.
  split; [reflexivity|]. split; [reflexivity|].
  apply (@clean_famhist_missing_column Empty_set 2
           {[ 2 := Fixtures.frame_without_famhist ]}
           Fixtures.frame_without_famhist); reflexivity.
Defined.

(** X2: on a frame whose famhist column does not hold strings (a numeric
    coding, say) [clean_famhist] raises the [AttributeError] of the [.str]
    accessor, and again leaves the frame of the caller as it was. *)
Theorem clean_famhist_numeric_column {E : Type} (X : nat) (h : gmap nat DataFrame)
    (df : DataFrame) (c : column) :
  h !! X = Some df ->
  df_getitem df "famhist" = Some c ->
  (forall l, c <> ColStr l) ->
  result_of (@clean_famhist E X h) =
    Raise (Exception "AttributeError"
             "Can only use .str accessor with string values!") /\
  state_of (@clean_famhist E X h) !! X = Some df.
Proof.
  intros HX Hcol Hc.
  assert (@clean_famhist E X h =
          (Raise (Exception "AttributeError"
                    "Can only use .str accessor with string values!"),
           <[fresh (dom h) := df]> h, [])) as ->.
  { unfold clean_famhist, df_copy, getitem, deref, alloc, lift.
    rewrite !run_bind, HX. cbn -[fresh].
    rewrite !run_bind, lookup_insert_eq, Hcol. cbn -[fresh].
    destruct c as [l|l|l]; try reflexivity. now destruct (Hc l). }
  unfold result_of, state_of. cbn [fst snd].
  split; [reflexivity|].
  rewrite lookup_insert_ne; [exact HX|].
  intros Heq. apply (is_fresh (dom h)). rewrite Heq. apply elem_of_dom. eauto.
Qed.

Lemma clean_famhist_numeric_column_witness :
  ({[ 2 := Fixtures.frame_with_coded_famhist ]} : gmap nat DataFrame) !! 2
    = Some Fixtures.frame_with_coded_famhist /\
  df_getitem Fixtures.frame_with_coded_famhist "famhist" = Some (ColInt [1%Z]) /\
  (forall l, ColInt [1%Z] <> ColStr l) /\
  result_of (@clean_famhist Empty_set 2 {[ 2 := Fixtures.frame_with_coded_famhist ]}) =
    Raise (Exception "AttributeError"
             "Can only use .str accessor with string values!") /\
  state_of (@clean_famhist Empty_set 2 {[ 2 := Fixtures.frame_with_coded_famhist ]}) !! 2
    = Some Fixtures.frame_with_coded_famhist.
Proof.
  split; [reflexivity|]. split; [reflexivity|]. split; [discriminate|].
  apply (@clean_famhist_numeric_column Empty_set 2
           {[ 2 := Fixtures.frame_with_coded_famhist ]}
           Fixtures.frame_with_coded_famhist (ColInt [1%Z]));
    [reflexivity|reflexivity|discriminate].
Defined.

(** X3: cleaning a cleaned frame changes nothing more: the second call
    returns yet another object, and it holds the same frame as the result
    of the first call; the frame of the caller is still untouched. *)
Theorem clean_famhist_twice {E : Type} (X : nat) (h : gmap nat DataFrame)
    (df : DataFrame) (l : list string) :
  h !! X = Some df ->
  df_getitem df "famhist" = Some (ColStr l) ->
  exists (X1 X2 : nat) (df' : DataFrame),
    result_of (@clean_famhist E X h) = Return X1 /\
    result_of (@clean_famhist E X1 (state_of (@clean_famhist E X h))) = Return X2 /\
    X2 <> X1 /\
    state_of (@clean_famhist E X1 (state_of (@clean_famhist E X h))) !! X1 = Some df' /\
    state_of (@clean_famhist E X1 (state_of (@clean_famhist E X h))) !! X2 = Some df' /\
    state_of (@clean_famhist E X1 (state_of (@clean_famhist E X h))) !! X = Some df.
Proof.
  intros HX Hcol.
  set (X1 := fresh (dom h)).
  set (df1 := df_setitem df "famhist" (ColStr (normalize <$> l))).
  set (h1 := <[X1 := df1]> h).
  assert (@clean_famhist E X h = (Return X1, h1, [])) as Hrun
    by exact (clean_famhist_run X h df l HX Hcol).
  assert (h1 !! X1 = Some df1) as H1 by apply lookup_insert_eq.
  assert (df_getitem df1 "famhist" = Some (ColStr (normalize <$> l))) as Hcol1
    by apply df_getitem_setitem_eq.
  assert (X1 <> X) as HX1.
  { intros Heq. apply (is_fresh (dom h)). fold X1. rewrite Heq.
    apply elem_of_dom. eauto. }
  assert (h1 !! X = Some df) as H1X.
  { unfold h1. now rewrite lookup_insert_ne. }
  assert (fresh (dom h1) <> X1) as Hne.
  { intros Heq. apply (is_fresh (dom h1)). rewrite Heq.
    apply elem_of_dom. eauto. }
  assert (fresh (dom h1) <> X) as HneX.
  { intros Heq. apply (is_fresh (dom h1)). rewrite Heq.
    apply elem_of_dom. eauto. }
  exists X1, (fresh (dom h1)), df1.
  rewrite Hrun.
  change (state_of (Return X1, h1, @nil E)) with h1.
  change (result_of (Return X1, h1, @nil E)) with (Return X1).
  rewrite (clean_famhist_run X1 h1 df1 _ H1 Hcol1).
  unfold result_of, state_of. cbn [fst snd].
  split; [reflexivity|]. split; [reflexivity|]. split; [exact Hne|].
  split; [now rewrite lookup_insert_ne|].
  split.
  - rewrite lookup_insert_eq. unfold df1.
    now rewrite df_setitem_twice, normalize_twice_column.
  - now rewrite lookup_insert_ne.
Qed.

Lemma clean_famhist_twice_witness :
  ({[ 4 := Fixtures.sample_frame ]} : gmap nat DataFrame) !! 4
    = Some Fixtures.sample_frame /\
  df_getitem Fixtures.sample_frame "famhist"
    = Some (ColStr [" Present "; "unknown"]%string) /\
  exists (X1 X2 : nat) (df' : DataFrame),
    result_of (@clean_famhist Empty_set 4 {[ 4 := Fixtures.sample_frame ]})
      = Return X1 /\
    result_of (@clean_famhist Empty_set X1
                 (state_of (@clean_famhist Empty_set 4 {[ 4 := Fixtures.sample_frame ]})))
      = Return X2 /\
    X2 <> X1 /\
    state_of (@clean_famhist Empty_set X1
                (state_of (@clean_famhist Empty_set 4 {[ 4 := Fixtures.sample_frame ]})))
      !! X1 = Some df' /\
    state_of (@clean_famhist Empty_set X1
                (state_of (@clean_famhist Empty_set 4 {[ 4 := Fixtures.sample_frame ]})))
      !! X2 = Some df' /\
    state_of (@clean_famhist Empty_set X1
                (state_of (@clean_famhist Empty_set 4 {[ 4 := Fixtures.sample_frame ]})))
      !! 4 = Some Fixtures.sample_frame.
Proof.
  split; [reflexivity|]. split; [reflexivity|].
  apply (@clean_famhist_twice Empty_set 4 {[ 4 := Fixtures.sample_frame ]}
           Fixtures.sample_frame [" Present "; "unknown"]%string);
    reflexivity.
Defined.

(** X4: the cleaned column has as many values as the column given, and
    each of them is in normal form: stripping it or lowercasing it again
    gives the value itself. *)
Theorem clean_famhist_normal_form {E : Type} (X : nat) (h : gmap nat DataFrame)
    (df : DataFrame) (l : list string) :
  h !! X = Some df ->
  df_getitem df "famhist" = Some (ColStr l) ->
  exists (X' : nat) (df' : DataFrame) (l' : list string),
    result_of (@clean_famhist E X h) = Return X' /\
    state_of (@clean_famhist E X h) !! X' = Some df' /\
    df_getitem df' "famhist" = Some (ColStr l') /\
    length l' = length l /\
    Forall (fun v => strip v = v /\ lower v = v) l'.
Proof.
  intros HX Hcol.
  rewrite (clean_famhist_run X h df l HX Hcol).
  unfold result_of, state_of. cbn [fst snd].
  eexists _, _, (normalize <$> l).
  split; [reflexivity|]. split; [apply lookup_insert_eq|].
  split; [apply df_getitem_setitem_eq|]. split; [apply length_fmap|].
  apply Forall_fmap, Forall_forall. intros v _. cbn.
  rewrite normalize_strip_lower. split.
  - now rewrite <- strip_lower, strip_idem.
  - apply lower_idem.
Qed.

Lemma clean_famhist_normal_form_witness :
  ({[ 4 := Fixtures.sample_frame ]} : gmap nat DataFrame) !! 4
    = Some Fixtures.sample_frame /\
  df_getitem Fixtures.sample_frame "famhist"
    = Some (ColStr [" Present "; "unknown"]%string) /\
  exists (X' : nat) (df' : DataFrame) (l' : list string),
    result_of (@clean_famhist Empty_set 4 {[ 4 := Fixtures.sample_frame ]})
      = Return X' /\
    state_of (@clean_famhist Empty_set 4 {[ 4 := Fixtures.sample_frame ]}) !! X'
      = Some df' /\
    df_getitem df' "famhist" = Some (ColStr l') /\
    length l' = length [" Present "; "unknown"]%string /\
    Forall (fun v => strip v = v /\ lower v = v) l'.
Proof.
  split; [reflexivity|]. split; [reflexivity|].
  apply (@clean_famhist_normal_form Empty_set 4 {[ 4 := Fixtures.sample_frame ]}
           Fixtures.sample_frame [" Present "; "unknown"]%string);
    reflexivity.
Defined.

Lemma normalize_variants_column (l ws : list string) :
  Forall2 (fun w x => w ∈ ["present"; "absent"]%string /\ variant_of w x) ws l ->
  normalize <$> l = ws.
Proof.
  induction 1 as [|w x ws l [Hw Hx] _ IH]; [reflexivity|].
  rewrite fmap_cons, IH. f_equal.
  apply normalize_variant; [exact Hx|].
  apply elem_of_cons in Hw as [->|Hw]; [reflexivity|].
  apply list_elem_of_singleton in Hw as ->. reflexivity.
Qed.

(** X5: a column of casing and whitespace variants of "present" and
    "absent" is cleaned to the column of the categories themselves. *)
Theorem clean_famhist_categories {E : Type} (X : nat) (h : gmap nat DataFrame)
    (df : DataFrame) (l ws : list string) :
  h !! X = Some df ->
  df_getitem df "famhist" = Some (ColStr l) ->
  Forall2 (fun w x => w ∈ ["present"; "absent"]%string /\ variant_of w x) ws l ->
  exists (X' : nat) (df' : DataFrame),
    result_of (@clean_famhist E X h) = Return X' /\
    state_of (@clean_famhist E X h) !! X' = Some df' /\
    df_getitem df' "famhist" = Some (ColStr ws).
Proof.
  intros HX Hcol Hvar.
  rewrite (clean_famhist_run X h df l HX Hcol).
  unfold result_of, state_of. cbn [fst snd].
  eexists _, _. split; [reflexivity|]. split; [apply lookup_insert_eq|].
  rewrite df_getitem_setitem_eq. do 2 f_equal.
  now apply normalize_variants_column.
Qed.

Lemma clean_famhist_categories_witness :
  ({[ 0 := Fixtures.variants_frame ]} : gmap nat DataFrame) !! 0
    = Some Fixtures.variants_frame /\
  df_getitem Fixtures.variants_frame "famhist"
    = Some (ColStr [" Present "; "ABSENT"]%string) /\
  Forall2 (fun w x => w ∈ ["present"; "absent"]%string /\ variant_of w x)
          ["present"; "absent"]%string [" Present "; "ABSENT"]%string /\
  exists (X' : nat) (df' : DataFrame),
    result_of (@clean_famhist Empty_set 0 {[ 0 := Fixtures.variants_frame ]})
      = Return X' /\
    state_of (@clean_famhist Empty_set 0 {[ 0 := Fixtures.variants_frame ]}) !! X'
      = Some df' /\
    df_getitem df' "famhist" = Some (ColStr ["present"; "absent"]%string).
Proof.
  assert (Forall2 (fun w x => w ∈ ["present"; "absent"]%string /\ variant_of w x)
            ["present"; "absent"]%string [" Present "; "ABSENT"]%string) as Hvar.
  { constructor; [split; [left|]|constructor; [split; [right; left|]|constructor]].
    - exists " "%string, "Present"%string, " "%string. repeat split; reflexivity.
    - exists ""%string, "ABSENT"%string, ""%string. repeat split; reflexivity. }
  split; [reflexivity|]. split; [reflexivity|]. split; [exact Hvar|].
  apply (@clean_famhist_categories Empty_set 0 {[ 0 := Fixtures.variants_frame ]}
           Fixtures.variants_frame [" Present "; "ABSENT"]%string
           ["present"; "absent"]%string);
    [reflexivity|reflexivity|exact Hvar].
Defined.

(** X6: the form lowercases famhist before the frame is built (line 126),
    the cleaning strips and lowercases.  Cleaning the frame of the form
    gives in famhist what cleaning the raw input gives: the lowercasing of
    the form neither adds to nor disturbs the cleaning, and the six columns
    stay in place. *)
Theorem clean_famhist_of_input_data {E : Type} (X : nat) (h : gmap nat DataFrame)
    (f : form) :
  h !! X = Some (input_data f) ->
  exists (X' : nat) (df' : DataFrame),
    result_of (@clean_famhist E X h) = Return X' /\
    state_of (@clean_famhist E X h) !! X' = Some df' /\
    df_getitem df' "famhist" = Some (ColStr [normalize (famhist f)]) /\
    columns df' = columns (input_data f) /\
    (forall name, name <> "famhist"%string ->
                  df_getitem df' name = df_getitem (input_data f) name).
Proof.
  intros HX.
  rewrite (clean_famhist_run X h (input_data f) [lower (famhist f)] HX
             (input_data_famhist f)).
  unfold result_of, state_of. cbn [fst snd].
  eexists _, _. split; [reflexivity|]. split; [apply lookup_insert_eq|].
  split; [|split].
  - rewrite df_getitem_setitem_eq. cbn [fmap list_fmap].
    now rewrite normalize_lower.
  - eapply columns_setitem. apply input_data_famhist.
  - intros name Hname. apply df_getitem_setitem_ne. congruence.
Qed.

Lemma clean_famhist_of_input_data_witness :
  ({[ 0 := input_data Fixtures.capitals_form ]} : gmap nat DataFrame) !! 0
    = Some (input_data Fixtures.capitals_form) /\
  exists (X' : nat) (df' : DataFrame),
    result_of (@clean_famhist Empty_set 0 {[ 0 := input_data Fixtures.capitals_form ]})
      = Return X' /\
    state_of (@clean_famhist Empty_set 0 {[ 0 := input_data Fixtures.capitals_form ]}) !! X'
      = Some df' /\
    df_getitem df' "famhist"
      = Some (ColStr [normalize (famhist Fixtures.capitals_form)]) /\
    columns df' = columns (input_data Fixtures.capitals_form) /\
    (forall name, name <> "famhist"%string ->
       df_getitem df' name = df_getitem (input_data Fixtures.capitals_form) name).
Proof.
  split; [reflexivity|].
  apply (@clean_famhist_of_input_data Empty_set 0
           {[ 0 := input_data Fixtures.capitals_form ]} Fixtures.capitals_form).
  reflexivity.
Defined.

(** *** The prediction block at its edges *)

(** X7: the category is case-insensitive.  Two forms whose famhist differ
    in the case of letters only, and that agree on the five numbers, give
    the same frame, so the block emits the same events for both. *)
Theorem famhist_case_insensitive (model : handle) (f1 f2 : form) (s1 s2 : state) :
  sbp f1 = sbp f2 -> ldl f1 = ldl f2 -> adiposity f1 = adiposity f2 ->
  obesity f1 = obesity f2 -> age f1 = age f2 ->
  lower (famhist f1) = lower (famhist f2) ->
  input_data f1 = input_data f2 /\
  events_of (prediction_block model f1 s1) = events_of (prediction_block model f2 s2).
Proof.
  intros H1 H2 H3 H4 H5 H6.
  assert (input_data f1 = input_data f2) as HX.
  { unfold input_data. now rewrite H1, H2, H3, H4, H5, H6. }
  split; [exact HX|].
  unfold prediction_block. rewrite HX. apply predict_and_show_events.
Qed.

Lemma famhist_case_insensitive_witness :
  sbp Fixtures.default_form = sbp Fixtures.capitals_form /\
  ldl Fixtures.default_form = ldl Fixtures.capitals_form /\
  adiposity Fixtures.default_form = adiposity Fixtures.capitals_form /\
  obesity Fixtures.default_form = obesity Fixtures.capitals_form /\
  age Fixtures.default_form = age Fixtures.capitals_form /\
  lower (famhist Fixtures.default_form) = lower (famhist Fixtures.capitals_form) /\
  input_data Fixtures.default_form = input_data Fixtures.capitals_form /\
  events_of (prediction_block Fixtures.stub_handle Fixtures.default_form
               Fixtures.start_state)
    = events_of (prediction_block Fixtures.stub_handle Fixtures.capitals_form
                   Fixtures.warm_state).
Proof.
  do 6 (split; [reflexivity|]).
  apply (famhist_case_insensitive Fixtures.stub_handle Fixtures.default_form
           Fixtures.capitals_form Fixtures.start_state Fixtures.warm_state);
    reflexivity.
Defined.

(** Once [proba[1]] has been read, [max(proba)] cannot fail and is no
    smaller than it. *)
Lemma py_max_after_index (proba : list Q) (q : Q) :
  proba !! 1 = Some q ->
  exists m, py_max proba = Return m /\ (q <= m)%Q.
Proof.
  intros Hq.
  destruct (py_max_spec proba) as (m & Hm & _ & Hall).
  { intros ->. discriminate. }
  exists m. split; [exact Hm|].
  rewrite Forall_forall in Hall. apply Hall.
  eapply list_elem_of_lookup_2. exact Hq.
Qed.

(** X8: the block never shows a partial result.  Whatever the model
    returns or raises, it shows either no metric at all or the three
    metrics in their order, and then the confidence shown is at least the
    probability of CHD shown. *)
Theorem metrics_all_or_nothing (model : handle) (X : DataFrame) (s : state) :
  metrics (events_of (predict_and_show model X s)) = [] \/
  exists (prediction : Z) (proba_chd m : Q),
    metrics (events_of (predict_and_show model X s)) =
      [ (Prediction, Risk (risk_of prediction));
        (ProbabiliteCHD, Percent proba_chd);
        (Confiance, Percent m) ] /\
    (proba_chd <= m)%Q.
Proof.
  rewrite predict_and_show_run. unfold handled, events_of.
  destruct (predict (handle_model model) X) as [a|e]; [|left; now destruct e].
  destruct (a !! 0) as [prediction|]; [|now left].
  destruct (predict_proba (handle_model model) X) as [b|e];
    [|left; now destruct e].
  cbn [snd].
  destruct (b !! 0) as [proba|]; [|now left].
  destruct (proba !! 1) as [proba_chd|] eqn:Hq; [|now left].
  destruct (py_max_after_index proba proba_chd Hq) as (m & -> & Hle).
  right. exists prediction, proba_chd, m. split; [|exact Hle].
  destruct (prediction =? 1)%Z;
    destruct (Qle_bool 0 proba_chd && Qle_bool proba_chd 1); reflexivity.
Qed.

(** X9: the coloured message agrees with the label.  With the label
    "high risk" the only message is the alert, with the label "low risk"
    the only message is the success box, each with the probability of CHD
    that the metric shows; without a label there is no message. *)
Theorem alert_matches_label (model : handle) (X : DataFrame) (s : state) :
  alerts (events_of (predict_and_show model X s)) =
  match metrics (events_of (predict_and_show model X s)) with
  | (Prediction, Risk HighRisk) :: (ProbabiliteCHD, Percent p) :: _ =>
      [StError (HighRiskAlert p)]
  | (Prediction, Risk LowRisk) :: (ProbabiliteCHD, Percent p) :: _ =>
      [StSuccess p]
  | _ => []
  end.
Proof.
  rewrite predict_and_show_run. unfold handled, events_of.
  destruct (predict (handle_model model) X) as [a|e]; [|now destruct e].
  destruct (a !! 0) as [prediction|]; [|reflexivity].
  destruct (predict_proba (handle_model model) X) as [b|e]; [|now destruct e].
  cbn [snd].
  destruct (b !! 0) as [proba|]; [|reflexivity].
  destruct (proba !! 1) as [proba_chd|] eqn:Hq; [|reflexivity].
  destruct (py_max_after_index proba proba_chd Hq) as (m & -> & _).
  unfold risk_of.
  destruct (prediction =? 1)%Z;
    destruct (Qle_bool 0 proba_chd && Qle_bool proba_chd 1); reflexivity.
Qed.

(** X10: a model that returns rows with a single entry (one known class)
    makes [proba[1]] fail after both calls have been made: the block shows
    no metric, only the error with the [IndexError], and returns
    normally. *)
Theorem single_class_row_reported (model : handle) (f : form) (s : state)
    (a : list Z) (prediction : Z) (b : list (list Q)) (proba : list Q) :
  predict (handle_model model) (input_data f) = Return a ->
  a !! 0 = Some prediction ->
  predict_proba (handle_model model) (input_data f) = Return b ->
  b !! 0 = Some proba ->
  length proba <= 1 ->
  result_of (prediction_block model f s) = Return tt /\
  rendered (events_of (prediction_block model f s)) =
    [Spinner; StError (PredictionFailure index_error)] /\
  metrics (events_of (prediction_block model f s)) = [] /\
  model_calls (events_of (prediction_block model f s)) =
    [EvPredict (handle_id model) (input_data f);
     EvPredictProba (handle_id model) (input_data f)].
Proof.
  intros Ha Hp Hb Hrow Hlen.
  assert (proba !! 1 = None) as Hq by (apply lookup_ge_None; lia).
  unfold prediction_block. rewrite predict_and_show_run.
  rewrite Ha, Hp, Hb, Hrow, Hq. repeat split; reflexivity.
Qed.

Lemma single_class_row_reported_witness :
  predict Fixtures.single_class_model (input_data Fixtures.default_form)
    = Return [0%Z] /\
  [0%Z] !! 0 = Some 0%Z /\
  predict_proba Fixtures.single_class_model (input_data Fixtures.default_form)
    = Return [[1%Q]] /\
  [[1%Q]] !! 0 = Some [1%Q] /\
  length [1%Q] <= 1 /\
  result_of (prediction_block Fixtures.single_class_handle Fixtures.default_form
               Fixtures.start_state) = Return tt /\
  rendered (events_of (prediction_block Fixtures.single_class_handle
                         Fixtures.default_form Fixtures.start_state)) =
    [Spinner; StError (PredictionFailure index_error)] /\
  metrics (events_of (prediction_block Fixtures.single_class_handle
                        Fixtures.default_form Fixtures.start_state)) = [] /\
  model_calls (events_of (prediction_block Fixtures.single_class_handle
                            Fixtures.default_form Fixtures.start_state)) =
    [EvPredict (handle_id Fixtures.single_class_handle)
       (input_data Fixtures.default_form);
     EvPredictProba (handle_id Fixtures.single_class_handle)
       (input_data Fixtures.default_form)].
Proof.
  do 4 (split; [reflexivity|]). split; [cbn; lia|].
  apply (single_class_row_reported Fixtures.single_class_handle
           Fixtures.default_form Fixtures.start_state
           [0%Z] 0%Z [[1%Q]] [1%Q]); reflexivity.
Defined.

(** X11: when [predict] raises, or returns an empty array, the block stops
    there: [predict_proba] is never called.  It is called exactly when
    [predict] returned an array with a first item. *)
Theorem predict_proba_called_iff (model : handle) (f : form) (s : state) :
  EvPredictProba (handle_id model) (input_data f)
    ∈ events_of (prediction_block model f s) <->
  exists a prediction,
    predict (handle_model model) (input_data f) = Return a /\
    a !! 0 = Some prediction.
Proof.
  unfold prediction_block.
  assert (forall evs : list event,
            EvPredictProba (handle_id model) (input_data f) ∈ evs <->
            EvPredictProba (handle_id model) (input_data f) ∈ model_calls evs)
    as Hfilter.
  { intros evs. unfold model_calls.
    rewrite !list_elem_of_In, List.filter_In. cbn. tauto. }
  rewrite Hfilter, model_calls_run.
  destruct (predict (handle_model model) (input_data f)) as [a|e];
    [destruct (a !! 0) as [prediction|] eqn:Hp|].
  - split; [intros _; now exists a, prediction|].
    intros _. apply elem_of_cons. right. now apply list_elem_of_singleton.
  - rewrite list_elem_of_singleton.
    split; [discriminate|]. intros (a' & p & [= <-] & Hp'). congruence.
  - rewrite list_elem_of_singleton.
    split; [discriminate|]. intros (? & ? & [=] & _).
Qed.

(** *** Runs of the script and sessions *)

Lemma model_calls_app (evs evs' : list event) :
  model_calls (evs ++ evs') = model_calls evs ++ model_calls evs'.
Proof. apply List.filter_app. Qed.

Lemma model_calls_rendered (els : list element) : model_calls (EvRender <$> els) = [].
Proof. induction els as [|e els IH]; [reflexivity|exact IH]. Qed.

Lemma io_rendered (els : list element) : List.filter is_io (EvRender <$> els) = [].
Proof. induction els as [|e els IH]; [reflexivity|exact IH]. Qed.

Lemma load_model_no_model_calls (s : state) :
  model_calls (events_of (load_model s)) = [].
Proof.
  rewrite load_model_run.
  destruct (cache s) as [[v els]|]; [apply model_calls_rendered|].
  destruct (fs s !! model_path) as [[m|e]|]; [|destruct (is_exception e)|];
    reflexivity.
Qed.

Lemma script_run_model_calls (f : form) (s : state) :
  model_calls (events_of (script_run f s)) =
  match result_of (load_model s) with
  | Return (Some model) =>
      if submitted f
      then model_calls (events_of (prediction_block model f (state_of (load_model s))))
      else []
  | _ => []
  end.
Proof.
  destruct (script_run_events f s) as (tail & -> & ->).
  rewrite !model_calls_app, load_model_no_model_calls.
  destruct (result_of (load_model s)) as [[model|]|e]; [|reflexivity..].
  destruct (submitted f); [|reflexivity].
  rewrite !model_calls_app. cbn [app].
  destruct (result_of (prediction_block model f (state_of (load_model s))));
    cbn; now rewrite app_nil_r.
Qed.

Lemma session_cached_state (forms : list form) (s : state) c :
  cache s = Some c -> state_of (session forms s) = s.
Proof.
  revert s. induction forms as [|f forms IH]; intros s Hc; [reflexivity|].
  assert (state_of (script_run f s) = s) as Hs.
  { rewrite script_run_state. destruct c as [v els].
    now rewrite (load_model_hit s v els Hc). }
  rewrite session_run_cons, Hs. unfold state_of at 1. cbn [fst snd].
  now apply IH.
Qed.

(** While the loader raises, a run changes nothing and calls no model. *)
Lemma session_raising (forms : list form) (s : state) e :
  result_of (load_model s) = Raise e ->
  state_of (session forms s) = s /\
  model_calls (events_of (session forms s)) = [].
Proof.
  intros Hr. destruct (load_model_raised s e Hr) as (Hrun & _).
  assert (state_of (load_model s) = s) as Hst by now rewrite Hrun.
  induction forms as [|f forms [IHs IHc]]; [now split|].
  rewrite session_run_cons, script_run_state, Hst.
  split; [exact IHs|].
  change (model_calls (events_of (script_run f s) ++ events_of (session forms s)) = []).
  now rewrite model_calls_app, script_run_model_calls, Hr, IHc.
Qed.

(** X12: with nothing cached and an artifact that is missing, or whose
    unpickling raises an [Exception], a run of the script renders the page
    head and one error, the one for a missing file or the one for a file
    that does not load, and stops: no form, no footer, no call of a model;
    the run itself returns normally. *)
Theorem script_stops_without_model (f : form) (s : state) :
  cache s = None ->
  (forall m, fs s !! model_path <> Some (Return m)) ->
  (forall e, fs s !! model_path = Some (Raise e) -> is_exception e = true) ->
  result_of (script_run f s) = Return tt /\
  model_calls (events_of (script_run f s)) = [] /\
  exists msg,
    rendered (events_of (script_run f s)) =
      [PageConfig; Title; Intro; StError msg] /\
    (msg = ArtifactNotFound model_path \/ exists e, msg = ArtifactCorrupt e).
Proof.
  intros Hc Hfs Hexc.
  rewrite script_run_model_calls, script_run_run, load_model_run, Hc.
  destruct (fs s !! model_path) as [[m|e]|] eqn:Hm.
  - now destruct (Hfs m).
  - rewrite (Hexc e eq_refl).
    split; [reflexivity|]. split; [reflexivity|].
    eexists. split; [reflexivity|]. right. eauto.
  - split; [reflexivity|]. split; [reflexivity|].
    eexists. split; [reflexivity|]. now left.
Qed.

Lemma script_stops_without_model_witness :
  cache Fixtures.corrupt_state = None /\
  (forall m, fs Fixtures.corrupt_state !! model_path <> Some (Return m)) /\
  (forall e, fs Fixtures.corrupt_state !! model_path = Some (Raise e) ->
             is_exception e = true) /\
  result_of (script_run Fixtures.idle_form Fixtures.corrupt_state) = Return tt /\
  model_calls (events_of (script_run Fixtures.idle_form Fixtures.corrupt_state)) = [] /\
  exists msg,
    rendered (events_of (script_run Fixtures.idle_form Fixtures.corrupt_state)) =
      [PageConfig; Title; Intro; StError msg] /\
    (msg = ArtifactNotFound model_path \/ exists e, msg = ArtifactCorrupt e).
Proof.
  assert (forall e, fs Fixtures.corrupt_state !! model_path = Some (Raise e) ->
                    is_exception e = true) as Hexc.
  { intros e He. vm_compute in He. injection He as <-. reflexivity. }
  split; [reflexivity|]. split; [discriminate|]. split; [exact Hexc|].
  apply (script_stops_without_model Fixtures.idle_form Fixtures.corrupt_state);
    [reflexivity|discriminate|exact Hexc].
Defined.

(** X13: a failure of the loader sticks.  Once a call of [load_model] has
    returned no handle, any later state with that cache entry, whatever the
    file system holds by then, gives no handle again: a run of the script
    does not look at the disk, calls no model, and leaves the state as it
    is. *)
Theorem loader_failure_sticks (f : form) (s s' : state) :
  result_of (load_model s) = Return None ->
  cache s' = cache (state_of (load_model s)) ->
  result_of (load_model s') = Return None /\
  List.filter is_io (events_of (script_run f s')) = [] /\
  model_calls (events_of (script_run f s')) = [] /\
  state_of (script_run f s') = s'.
Proof.
  intros Hnone Hcache.
  destruct (load_model_returned s None Hnone) as (els & Hc).
  rewrite Hc in Hcache.
  rewrite script_run_model_calls, script_run_state, script_run_run.
  rewrite (load_model_hit s' None els Hcache).
  unfold result_of, state_of, events_of. cbn [fst snd].
  repeat split. unfold header. cbn [app List.filter is_io].
  apply io_rendered.
Qed.

Lemma loader_failure_sticks_witness :
  result_of (load_model Fixtures.bare_state) = Return None /\
  cache Fixtures.late_state = cache (state_of (load_model Fixtures.bare_state)) /\
  result_of (load_model Fixtures.late_state) = Return None /\
  List.filter is_io (events_of (script_run Fixtures.default_form Fixtures.late_state)) = [] /\
  model_calls (events_of (script_run Fixtures.default_form Fixtures.late_state)) = [] /\
  state_of (script_run Fixtures.default_form Fixtures.late_state) = Fixtures.late_state.
Proof.
  split; [reflexivity|]. split; [reflexivity|].
  apply (loader_failure_sticks Fixtures.default_form Fixtures.bare_state
           Fixtures.late_state); reflexivity.
Defined.

(** X14: until the button is pressed nothing is predicted.  A run with an
    unsubmitted form calls no model, and what it does is the same for all
    unsubmitted forms: the values in the widgets play no part. *)
Theorem unsubmitted_form_ignored (f1 f2 : form) (s : state) :
  submitted f1 = false -> submitted f2 = false ->
  script_run f1 s = script_run f2 s /\
  model_calls (events_of (script_run f1 s)) = [].
Proof.
  intros H1 H2. split.
  - rewrite !script_run_run, H1, H2. reflexivity.
  - rewrite script_run_model_calls, H1.
    now destruct (result_of (load_model s)) as [[model|]|].
Qed.

Lemma unsubmitted_form_ignored_witness :
  submitted Fixtures.idle_form = false /\
  submitted (Build_form 90 0 10 10 15 "Absent" false) = false /\
  script_run Fixtures.idle_form Fixtures.start_state
    = script_run (Build_form 90 0 10 10 15 "Absent" false) Fixtures.start_state /\
  model_calls (events_of (script_run Fixtures.idle_form Fixtures.start_state)) = [].
Proof.
  split; [reflexivity|]. split; [reflexivity|].
  apply (unsubmitted_form_ignored Fixtures.idle_form
           (Build_form 90 0 10 10 15 "Absent" false) Fixtures.start_state);
    reflexivity.
Defined.

(** X15: with a handle, and a model that raises nothing but instances of
    [Exception], the run reaches the end of the script: it returns
    normally and the last thing rendered is the footer, also when the
    prediction failed. *)
Theorem footer_rendered_last (f : form) (s : state) (model : handle) :
  result_of (load_model s) = Return (Some model) ->
  (forall e, predict (handle_model model) (input_data f) = Raise e ->
             is_exception e = true) ->
  (forall e, predict_proba (handle_model model) (input_data f) = Raise e ->
             is_exception e = true) ->
  result_of (script_run f s) = Return tt /\
  last (events_of (script_run f s)) = Some (EvRender Footer).
Proof.
  intros Hm Hp Hq.
  assert (result_of (prediction_block model f (state_of (load_model s))) = Return tt)
    as Hblock.
  { unfold prediction_block. rewrite predict_and_show_result.
    destruct (predict (handle_model model) (input_data f)) as [a|e] eqn:Ha;
      [|now rewrite (Hp e eq_refl)].
    destruct (a !! 0); [|reflexivity].
    destruct (predict_proba (handle_model model) (input_data f)) as [b|e] eqn:Hb;
      [reflexivity|now rewrite (Hq e eq_refl)]. }
  rewrite script_run_run, Hm.
  destruct (submitted f).
  - rewrite Hblock. split; [reflexivity|].
    unfold events_of at 1. cbn [snd]. now rewrite !last_app.
  - split; [reflexivity|].
    unfold events_of at 1. cbn [snd]. now rewrite !last_app.
Qed.

Lemma footer_rendered_last_witness :
  result_of (load_model Fixtures.warm_broken_state)
    = Return (Some Fixtures.broken_handle) /\
  (forall e, predict (handle_model Fixtures.broken_handle)
               (input_data Fixtures.default_form) = Raise e ->
             is_exception e = true) /\
  (forall e, predict_proba (handle_model Fixtures.broken_handle)
               (input_data Fixtures.default_form) = Raise e ->
             is_exception e = true) /\
  result_of (script_run Fixtures.default_form Fixtures.warm_broken_state) = Return tt /\
  last (events_of (script_run Fixtures.default_form Fixtures.warm_broken_state))
    = Some (EvRender Footer).
Proof.
  assert (forall e, predict (handle_model Fixtures.broken_handle)
                      (input_data Fixtures.default_form) = Raise e ->
                    is_exception e = true) as Hp.
  { intros e He. injection He as <-. reflexivity. }
  assert (forall e, predict_proba (handle_model Fixtures.broken_handle)
                      (input_data Fixtures.default_form) = Raise e ->
                    is_exception e = true) as Hq.
  { intros e He. discriminate He. }
  split; [reflexivity|]. split; [exact Hp|]. split; [exact Hq|].
  apply (footer_rendered_last Fixtures.default_form Fixtures.warm_broken_state
           Fixtures.broken_handle); [reflexivity|exact Hp|exact Hq].
Defined.

Lemma block_calls_handle (model : handle) (X : DataFrame) (s : state) :
  Forall (fun ev => call_handle ev = Some (handle_id model))
         (model_calls (events_of (predict_and_show model X s))).
Proof.
  rewrite model_calls_run.
  destruct (predict (handle_model model) X) as [a|e];
    [destruct (a !! 0)|]; repeat constructor.
Qed.

Lemma block_calls_length (model : handle) (X : DataFrame) (s : state) :
  length (model_calls (events_of (predict_and_show model X s))) <= 2.
Proof.
  rewrite model_calls_run.
  destruct (predict (handle_model model) X) as [a|e];
    [destruct (a !! 0)|]; cbn; lia.
Qed.

Lemma session_model_calls_cons (f : form) (forms : list form) (s : state) :
  model_calls (events_of (session (f :: forms) s)) =
  model_calls (events_of (script_run f s)) ++
  model_calls (events_of (session forms (state_of (load_model s)))).
Proof.
  rewrite session_run_cons. unfold events_of at 1. cbn [snd].
  now rewrite model_calls_app, script_run_state.
Qed.

(** With the handle in the cache every call of a session goes to it; with
    a failure in the cache there is no call. *)
Lemma session_calls_cached (forms : list form) (s : state) v els :
  cache s = Some (v, els) ->
  match v with
  | Some model =>
      Forall (fun ev => call_handle ev = Some (handle_id model))
             (model_calls (events_of (session forms s)))
  | None => model_calls (events_of (session forms s)) = []
  end.
Proof.
  intros Hc. induction forms as [|f forms IH].
  - destruct v; [constructor|reflexivity].
  - rewrite session_model_calls_cons, script_run_model_calls.
    rewrite (load_model_hit s v els Hc).
    unfold result_of at 1, state_of. cbn [fst snd].
    destruct v as [model|]; [|exact IH].
    apply Forall_app_2; [|exact IH].
    destruct (submitted f); [apply block_calls_handle|constructor].
Qed.

(** X16: one process, one model object.  Over any sequence of runs, every
    call of [predict] and [predict_proba] goes to the object the first call
    of the loader returned; if that call returned none, no model is called
    in the whole session. *)
Theorem session_one_handle (f : form) (forms : list form) (s : state) :
  match result_of (load_model s) with
  | Return (Some model) =>
      Forall (fun ev => call_handle ev = Some (handle_id model))
             (model_calls (events_of (session (f :: forms) s)))
  | _ => model_calls (events_of (session (f :: forms) s)) = []
  end.
Proof.
  destruct (result_of (load_model s)) as [v|e] eqn:Hv.
  - destruct (load_model_returned s v Hv) as (els & Hc).
    rewrite session_model_calls_cons, script_run_model_calls, Hv.
    pose proof (session_calls_cached forms _ v els Hc) as Hrest.
    destruct v as [model|].
    + apply Forall_app_2; [|exact Hrest].
      destruct (submitted f); [apply block_calls_handle|constructor].
    + exact Hrest.
  - now destruct (session_raising (f :: forms) s e Hv).
Qed.

(** X17: a run calls the model at most twice, and only for a submitted
    form: over a session the number of model calls is at most twice the
    number of submitted forms. *)
Theorem session_model_calls_bound (forms : list form) (s : state) :
  length (model_calls (events_of (session forms s))) <=
  2 * length (List.filter submitted forms).
Proof.
  revert s. induction forms as [|f forms IH]; intros s; [cbn; lia|].
  rewrite session_model_calls_cons, length_app, script_run_model_calls.
  specialize (IH (state_of (load_model s))).
  cbn [List.filter].
  destruct (result_of (load_model s)) as [[model|]|];
    destruct (submitted f); cbn [length]; try lia.
  pose proof (block_calls_length model (input_data f) (state_of (load_model s))).
  unfold prediction_block. lia.
Qed.

(** X18: only the first call of the loader changes the process.  After
    any sequence of at least one run the state is the state that first
    call left: the later runs, predictions included, change nothing, and
    the files on disk are never changed at all. *)
Theorem session_state (f : form) (forms : list form) (s : state) :
  state_of (session (f :: forms) s) = state_of (load_model s) /\
  fs (state_of (session (f :: forms) s)) = fs s.
Proof.
  assert (state_of (session (f :: forms) s) = state_of (load_model s)) as Hs.
  { destruct (result_of (load_model s)) as [v|e] eqn:Hv.
    - rewrite session_run_cons. unfold state_of at 1. cbn [fst snd].
      rewrite script_run_state.
      destruct (load_model_returned s v Hv) as (els & Hc).
      exact (session_cached_state forms _ _ Hc).
    - destruct (session_raising (f :: forms) s e Hv) as [-> _].
      destruct (load_model_raised s e Hv) as (-> & _). reflexivity. }
  split; [exact Hs|]. rewrite Hs, load_model_run.
  destruct (cache s) as [[v els]|]; [reflexivity|].
  destruct (fs s !! model_path) as [[m|e]|]; [|destruct (is_exception e)|];
    reflexivity.
Qed.
